(** * FormAPI: the multi-form submission handler

    A shallow embedding of [netlify/functions/submit-form.js] and the
    properties of its validation, anti-spam, sanitising and dispatch
    pipeline.

    The file has two layers.  [Module JS] is the part of the JavaScript
    runtime the handler leans on: strings as sequences of UTF-16 code
    units, JSON values, truthiness, string conversion, [trim], [parseInt],
    regular expressions and [JSON.stringify].  The rest follows the source
    function by function and keeps its names. *)

From Stdlib Require Import List ZArith NArith Bool String Ascii Lia.
Import ListNotations.

Set Implicit Arguments.
Set Warnings "-register-all".


(* ================================================================== *)
(** * The JavaScript runtime, as far as the handler uses it            *)
(* ================================================================== *)
Module JS.

Local Open Scope N_scope.

(** ** Strings: sequences of UTF-16 code units *)

Definition jsstring := list N.

(** A source literal, one code unit per character. *)
Definition lit (s : string) : jsstring :=
  map N_of_ascii (list_ascii_of_string s).

Fixpoint streq (a b : jsstring) : bool :=
  match a, b with
  | [], [] => true
  | x :: a', y :: b' => N.eqb x y && streq a' b'
  | _, _ => false
  end.

Fixpoint dropWhile (p : N -> bool) (s : jsstring) : jsstring :=
  match s with
  | [] => []
  | c :: rest => if p c then dropWhile p rest else s
  end.

Fixpoint takeWhile (p : N -> bool) (s : jsstring) : jsstring :=
  match s with
  | [] => []
  | c :: rest => if p c then c :: takeWhile p rest else []
  end.

(** WhiteSpace and LineTerminator of ECMA-262: what [trim], [parseInt] and
    the regular expression class [\s] all skip. *)
Definition isWhiteSpace (c : N) : bool :=
  ((9 <=? c) && (c <=? 13)) || (c =? 32) || (c =? 160) || (c =? 5760)
  || ((8192 <=? c) && (c <=? 8202)) || (c =? 8232) || (c =? 8233)
  || (c =? 8239) || (c =? 8287) || (c =? 12288) || (c =? 65279).

Definition isDigit (c : N) : bool := (48 <=? c) && (c <=? 57).

Definition trimStart (s : jsstring) : jsstring := dropWhile isWhiteSpace s.
Definition trimEnd (s : jsstring) : jsstring := rev (dropWhile isWhiteSpace (rev s)).
Definition trim (s : jsstring) : jsstring := trimEnd (trimStart s).

Definition isEmpty (s : jsstring) : bool :=
  match s with [] => true | _ => false end.

(** [s.startsWith(p)] *)
Fixpoint startsWith (p s : jsstring) : bool :=
  match p, s with
  | [], _ => true
  | x :: p', y :: s' => N.eqb x y && startsWith p' s'
  | _ :: _, [] => false
  end.

(** [s.includes(sub)] *)
Fixpoint includes (sub s : jsstring) : bool :=
  startsWith sub s ||
  match s with
  | [] => false
  | _ :: rest => includes sub rest
  end.

(** [parts.join(sep)] on an array of strings. *)
Fixpoint join (sep : jsstring) (parts : list jsstring) : jsstring :=
  match parts with
  | [] => []
  | [p] => p
  | p :: rest => p ++ sep ++ join sep rest
  end.

(** [s.replace(/c/g, rep)] for a one-character pattern and a replacement
    without [$] patterns. *)
Definition replaceAll (c : N) (rep : jsstring) (s : jsstring) : jsstring :=
  flat_map (fun u => if N.eqb u c then rep else [u]) s.

(** ** Numbers

    A JSON number is kept as the decimal it was written as,
    [mantissa * 10 ^ exponent].  The program never computes with a
    submitted number: it tests it for zero and converts it to a string.
    For a literal of at most 15 significant digits within the range of
    normal doubles (every millisecond timestamp is one) the double the
    engine holds is zero exactly when the decimal is, and Number::toString
    prints it with the digits of the decimal, laid out as
    [Number_toString] lays them out.  A literal with more digits than a
    double keeps, or one that overflows or underflows, is held by the
    engine as another double than the decimal written: what is proved
    of the digits of a number is proved within that domain. *)

Inductive number := Dec (mantissa exponent : Z).

Fixpoint uint_units (u : Decimal.uint) : jsstring :=
  match u with
  | Decimal.Nil => []
  | Decimal.D0 u => 48%N :: uint_units u
  | Decimal.D1 u => 49%N :: uint_units u
  | Decimal.D2 u => 50%N :: uint_units u
  | Decimal.D3 u => 51%N :: uint_units u
  | Decimal.D4 u => 52%N :: uint_units u
  | Decimal.D5 u => 53%N :: uint_units u
  | Decimal.D6 u => 54%N :: uint_units u
  | Decimal.D7 u => 55%N :: uint_units u
  | Decimal.D8 u => 56%N :: uint_units u
  | Decimal.D9 u => 57%N :: uint_units u
  end.

Definition digits (p : positive) : jsstring := uint_units (Pos.to_uint p).

Definition zeros (n : Z) : jsstring := repeat 48%N (Z.to_nat n).

(** Number::toString on a positive decimal [p * 10 ^ e]: with [k]
    significant digits [ds] and the decimal point after [n] of them. *)
Definition format_positive (p : positive) (e : Z) : jsstring :=
  let all := digits p in
  let ds := rev (dropWhile (N.eqb 48) (rev all)) in
  let k := Z.of_nat (List.length ds) in
  let n := (Z.of_nat (List.length all) + e)%Z in
  if ((k <=? n) && (n <=? 21))%Z then ds ++ zeros (n - k)
  else if ((0 <? n) && (n <=? 21))%Z then
    firstn (Z.to_nat n) ds ++ lit "." ++ skipn (Z.to_nat n) ds
  else if ((-6 <? n) && (n <=? 0))%Z then lit "0." ++ zeros (- n) ++ ds
  else
    let x := (n - 1)%Z in
    let es := (if (x <? 0)%Z then lit "-" else lit "+")
              ++ digits (Z.to_pos (Z.abs x)) in
    match ds with
    | [] => []
    | [d] => d :: lit "e" ++ es
    | d :: rest => d :: lit "." ++ rest ++ lit "e" ++ es
    end.

Definition Number_toString (x : number) : jsstring :=
  match x with
  | Dec Z0 _ => lit "0"
  | Dec (Zpos p) e => format_positive p e
  | Dec (Zneg p) e => lit "-" ++ format_positive p e
  end.

Definition isZero (x : number) : bool :=
  match x with Dec Z0 _ => true | _ => false end.

(** ** Values

    What [JSON.parse] can return.  An object is the list of its own
    properties in enumeration order; [undefined], which only arises from
    reading a property that is not there, is [None] at type
    [option value]. *)

Inductive value :=
| VNull
| VBool (b : bool)
| VNum (x : number)
| VStr (s : jsstring)
| VArr (items : list value)
| VObj (props : list (jsstring * value)).

Definition object := list (jsstring * value).

(** What a [throw] carries: the engine's TypeError, or whatever an
    extension hook raised. *)
Inductive thrown :=
| TypeError (what : string)
| Raised (cause : value).

(** The outcome of evaluating an expression that may throw. *)
Inductive completion (A : Type) :=
| Normal (a : A)
| Throw (e : thrown).
Arguments Normal {A} a.
Arguments Throw {A} e.

Definition bind {A B} (c : completion A) (k : A -> completion B) : completion B :=
  match c with
  | Normal a => k a
  | Throw e => Throw e
  end.

Notation "'let*' x ':=' c 'in' k" := (bind c (fun x => k))
  (at level 10, x name, c at level 100, k at level 200).

(** Own-property read on a table of named entries. *)
Fixpoint ownProperty {A : Type} (table : list (jsstring * A)) (k : jsstring)
  : option A :=
  match table with
  | [] => None
  | (k', v) :: rest => if streq k' k then Some v else ownProperty rest k
  end.

(** [o[k]] on a parsed object, for a name [k] that [Object.prototype] does
    not define. *)
Definition Get (o : object) (k : jsstring) : option value := ownProperty o k.

(** The names every object literal inherits from [Object.prototype]. *)
Definition Object_prototype : list jsstring :=
  map lit
    ["constructor"; "hasOwnProperty"; "isPrototypeOf"; "propertyIsEnumerable";
     "toLocaleString"; "toString"; "valueOf"; "__proto__";
     "__defineGetter__"; "__defineSetter__"; "__lookupGetter__";
     "__lookupSetter__"]%string.

(** What a computed member access [table[key]] on an object literal finds:
    an own entry, a member inherited from [Object.prototype] (a function
    or the prototype itself: truthy, and without any of the properties a
    table entry has), or [undefined]. *)
Inductive member (A : Type) :=
| Own (a : A)
| Inherited
| Absent.
Arguments Own {A} a.
Arguments Inherited {A}.
Arguments Absent {A}.

Definition Member {A : Type} (table : list (jsstring * A)) (key : jsstring)
  : member A :=
  match ownProperty table key with
  | Some a => Own a
  | None => if existsb (streq key) Object_prototype then Inherited else Absent
  end.

(** [Object.keys(table)] *)
Definition Object_keys {A : Type} (table : list (jsstring * A)) : list jsstring :=
  map fst table.

Definition hasOwn (o : object) (k : jsstring) : bool :=
  match Get o k with Some _ => true | None => false end.

(** Assignment [o[k] = v]: an existing property keeps its place. *)
Fixpoint Set_ (o : object) (k : jsstring) (v : value) : object :=
  match o with
  | [] => [(k, v)]
  | (k', v') :: rest =>
      if streq k' k then (k', v) :: rest else (k', v') :: Set_ rest k v
  end.

(** ToBoolean; [None] is [undefined]. *)
Definition ToBoolean (v : option value) : bool :=
  match v with
  | None => false
  | Some VNull => false
  | Some (VBool b) => b
  | Some (VNum x) => negb (isZero x)
  | Some (VStr s) => negb (isEmpty s)
  | Some (VArr _) => true
  | Some (VObj _) => true
  end.

(** ToString.  An array joins its elements with commas, [null] elements
    as the empty string.  A parsed object prints as [[object Object]]
    through the inherited [toString], unless it has an own property of
    that name: a parsed value is never callable, [valueOf] yields no
    primitive, and the conversion throws. *)
Fixpoint ToString (v : value) : completion jsstring :=
  match v with
  | VNull => Normal (lit "null")
  | VBool true => Normal (lit "true")
  | VBool false => Normal (lit "false")
  | VNum x => Normal (Number_toString x)
  | VStr s => Normal s
  | VArr items =>
      (fix elements (l : list value) : completion jsstring :=
         match l with
         | [] => Normal []
         | x :: rest =>
             let* a := match x with VNull => Normal [] | _ => ToString x end in
             match rest with
             | [] => Normal a
             | _ :: _ => let* b := elements rest in Normal (a ++ lit "," ++ b)
             end
         end) items
  | VObj props =>
      if hasOwn props (lit "toString")
      then Throw (TypeError "Cannot convert object to primitive value")
      else Normal (lit "[object Object]")
  end.

(** ToString of the result of a property read, which may be [undefined]. *)
Definition ToStringU (v : option value) : completion jsstring :=
  match v with
  | None => Normal (lit "undefined")
  | Some x => ToString x
  end.

(** ToPropertyKey, for the computed member access [table[v]]. *)
Definition ToPropertyKey (v : option value) : completion jsstring := ToStringU v.

(** [v.trim()]: only a string has the method; calling the missing member
    of anything else that is truthy is a TypeError. *)
Definition call_trim (v : option value) : completion jsstring :=
  match v with
  | Some (VStr s) => Normal (trim s)
  | _ => Throw (TypeError "trim is not a function")
  end.

Definition isString (v : value) : bool :=
  match v with VStr _ => true | _ => false end.

(** ** parseInt(s, 10)

    [None] is NaN.  The result is kept as the exact integer the digits
    denote.  The program only subtracts it from [Date.now()], an integral
    time value of magnitude at most 8.64e15, and compares the difference
    with 2000: rounding to doubles is monotone and exact below 2^53, so
    it never changes the outcome of that comparison. *)

Fixpoint digits_value (acc : Z) (ds : jsstring) : Z :=
  match ds with
  | [] => acc
  | d :: rest => digits_value (10 * acc + (Z.of_N d - 48)) rest
  end.

Definition parseInt10 (s : jsstring) : option Z :=
  let t := trimStart s in
  let '(negative, r) :=
    match t with
    | 45%N :: r => (true, r)
    | 43%N :: r => (false, r)
    | _ => (false, t)
    end in
  match takeWhile isDigit r with
  | [] => None
  | ds => Some (if negative then (- digits_value 0 ds)%Z else digits_value 0 ds)
  end.

(** ** Regular expressions

    A pattern without flags matches code unit by code unit.  Both patterns
    of the program are anchored at [^] and [$], so [test] is a match of
    the whole string, decided here by derivatives. *)

Inductive regex :=
| Never
| Empty
| Class (p : N -> bool)
| Seq (r s : regex)
| Alt (r s : regex)
| Star (r : regex).

Definition Plus (r : regex) : regex := Seq r (Star r).

(** [r{lo,hi}], as [lo] copies of [r] followed by up to [hi - lo] more. *)
Fixpoint atMost (r : regex) (n : nat) : regex :=
  match n with
  | O => Empty
  | S m => Alt Empty (Seq r (atMost r m))
  end.

Fixpoint copies (r : regex) (n : nat) (then_ : regex) : regex :=
  match n with
  | O => then_
  | S m => Seq r (copies r m then_)
  end.

Definition Between (r : regex) (lo hi : nat) : regex :=
  copies r lo (atMost r (hi - lo)).

Fixpoint nullable (r : regex) : bool :=
  match r with
  | Never => false
  | Empty => true
  | Class _ => false
  | Seq r s => nullable r && nullable s
  | Alt r s => nullable r || nullable s
  | Star _ => true
  end.

Definition seq (r s : regex) : regex :=
  match r with
  | Never => Never
  | Empty => s
  | _ => Seq r s
  end.

Definition alt (r s : regex) : regex :=
  match r, s with
  | Never, _ => s
  | _, Never => r
  | _, _ => Alt r s
  end.

Fixpoint derive (c : N) (r : regex) : regex :=
  match r with
  | Never => Never
  | Empty => Never
  | Class p => if p c then Empty else Never
  | Seq r s =>
      if nullable r then alt (seq (derive c r) s) (derive c s)
      else seq (derive c r) s
  | Alt r s => alt (derive c r) (derive c s)
  | Star r => seq (derive c r) (Star r)
  end.

(** [/^r$/.test(s)] *)
Definition test (r : regex) (s : jsstring) : bool :=
  nullable (fold_left (fun r c => derive c r) s r).

(** ** JSON.stringify *)

Definition hexDigit (n : N) : N := if n <? 10 then 48 + n else 87 + n.

(** The escape [\uXXXX], lower-case as the engine writes it. *)
Definition unicodeEscape (c : N) : jsstring :=
  [92; 117; hexDigit (c / 4096 mod 16); hexDigit (c / 256 mod 16);
   hexDigit (c / 16 mod 16); hexDigit (c mod 16)].

Definition isLead (c : N) : bool := (55296 <=? c) && (c <=? 56319).
Definition isTrail (c : N) : bool := (56320 <=? c) && (c <=? 57343).

(** QuoteJSONString without the surrounding quotes: the short escapes,
    [\u] escapes for the other control characters and for surrogates
    that are not part of a pair. *)
Fixpoint quoteBody (s : jsstring) : jsstring :=
  match s with
  | [] => []
  | c :: rest =>
      if c =? 8 then [92; 98] ++ quoteBody rest
      else if c =? 9 then [92; 116] ++ quoteBody rest
      else if c =? 10 then [92; 110] ++ quoteBody rest
      else if c =? 12 then [92; 102] ++ quoteBody rest
      else if c =? 13 then [92; 114] ++ quoteBody rest
      else if c =? 34 then [92; 34] ++ quoteBody rest
      else if c =? 92 then [92; 92] ++ quoteBody rest
      else if c <? 32 then unicodeEscape c ++ quoteBody rest
      else if isLead c then
        match rest with
        | d :: rest' =>
            if isTrail d then c :: d :: quoteBody rest'
            else unicodeEscape c ++ quoteBody rest
        | [] => unicodeEscape c
        end
      else if isTrail c then unicodeEscape c ++ quoteBody rest
      else c :: quoteBody rest
  end.

Definition quote (s : jsstring) : jsstring := [34] ++ quoteBody s ++ [34].

Fixpoint JSON_stringify (v : value) : jsstring :=
  match v with
  | VNull => lit "null"
  | VBool true => lit "true"
  | VBool false => lit "false"
  | VNum x => Number_toString x
  | VStr s => quote s
  | VArr items => lit "[" ++ join (lit ",") (map JSON_stringify items) ++ lit "]"
  | VObj props =>
      lit "{"
      ++ join (lit ",")
           (map (fun kv => match kv with
                           | (k, x) => quote k ++ lit ":" ++ JSON_stringify x
                           end) props)
      ++ lit "}"
  end.

End JS.

Import JS.
Local Open Scope Z_scope.

(* ================================================================== *)
(** * The program: netlify/functions/submit-form.js                    *)
(* ================================================================== *)

(** ** What the handler is run with *)

(** The event the platform delivers. *)
Module Event.
Record t := { httpMethod : jsstring; body : jsstring }.
End Event.

(** The engine services the handler calls: [JSON.parse] on the body
    ([None] when it throws a SyntaxError), the clock read by [Date.now()]
    and the text of [new Date().toISOString()]. *)
Record Runtime := {
  JSON_parse : jsstring -> option value;
  Date_now : Z;
  Date_toISOString : jsstring
}.

(** An [onSuccess] hook is awaited: it resolves, or it throws or rejects
    with a cause. *)
Inductive hook_result :=
| Resolves
| Fails (cause : thrown).

(** The bodies of the four [onSuccess] closures are the extension points of
    the program ("implement as needed"); the embedding takes their
    behaviour per form as a parameter. *)
Definition Hooks := jsstring -> object -> hook_result.

(** The hooks as shipped only write the submission to the console. *)
Definition shipped : Hooks := fun _ _ => Resolves.

(** What an invocation does besides returning: calls of a form's
    [onSuccess], and the [console.error] of the handler. *)
Inductive effect :=
| Invoked (form : jsstring) (data : object)
| ConsoleError (form : jsstring) (cause : thrown).

(** ** Form configurations *)

Record FormConfig := {
  requiredFields : list jsstring;
  optionalFields : list jsstring;
  onSuccess : option (object -> hook_result)
}.

Definition FORM_CONFIGS (hooks : Hooks) : list (jsstring * FormConfig) :=
  [ (lit "contact",
     {| requiredFields := map lit ["name"; "email"; "message"]%string;
        optionalFields := map lit ["phone"; "company"]%string;
        onSuccess := Some (hooks (lit "contact")) |});
    (lit "newsletter",
     {| requiredFields := map lit ["email"]%string;
        optionalFields := map lit ["name"; "preferences"]%string;
        onSuccess := Some (hooks (lit "newsletter")) |});
    (lit "quote",
     {| requiredFields := map lit ["name"; "email"; "service_type"; "budget"]%string;
        optionalFields := map lit ["phone"; "company"; "details"; "timeline"]%string;
        onSuccess := Some (hooks (lit "quote")) |});
    (lit "callback",
     {| requiredFields := map lit ["name"; "phone"]%string;
        optionalFields := map lit ["preferred_time"; "notes"]%string;
        onSuccess := Some (hooks (lit "callback")) |}) ].

(** ** Validation helpers *)

(** [[^\s@]] *)
Definition notSpaceOrAt : regex :=
  Class (fun c => negb (isWhiteSpace c || N.eqb c 64)).

(** [/^[^\s@]+@[^\s@]+\.[^\s@]+$/] *)
Definition emailRegex : regex :=
  Seq (Plus notSpaceOrAt)
    (Seq (Class (N.eqb 64))
       (Seq (Plus notSpaceOrAt)
          (Seq (Class (N.eqb 46)) (Plus notSpaceOrAt)))).

(** [/^[\d\s\-+()]{7,20}$/] *)
Definition phoneRegex : regex :=
  Between
    (Class (fun c => isDigit c || isWhiteSpace c || N.eqb c 45 || N.eqb c 43
                     || N.eqb c 40 || N.eqb c 41))
    7 20.

(** A validator answers [null] ([None]) or the reason for rejecting. *)
Definition validator := option value -> completion (option jsstring).

Definition validators : list (jsstring * validator) :=
  [ (lit "email",
     fun value =>
       let* s := ToStringU value in
       Normal (if test emailRegex s then None
               else Some (lit "Invalid email format")));
    (lit "phone",
     fun value =>
       if negb (ToBoolean value) then Normal None
       else
         let* s := ToStringU value in
         Normal (if test phoneRegex s then None
                 else Some (lit "Invalid phone format"))) ].

(** [validators[field]] is read for the required fields of
    [FORM_CONFIGS], none of which names a member of [Object.prototype]
    (lemma [schema_fields_own] below), so the read is an own-property
    read. *)
Definition validateField (field : jsstring) (value : option value)
  : completion (option jsstring) :=
  match ownProperty validators field with
  | Some check => check value
  | None => Normal None
  end.

(** [typeof v === 'string' && !v.trim()] *)
Definition isBlankString (v : option value) : bool :=
  match v with
  | Some (VStr s) => isEmpty (trim s)
  | _ => false
  end.

(** The [for ... of] loop of [validateRequiredFields], with the array
    [errors] threaded through. *)
Fixpoint validateLoop (data : object) (fields : list jsstring)
    (errors : list jsstring) : completion (list jsstring) :=
  match fields with
  | [] => Normal errors
  | field :: rest =>
      if negb (ToBoolean (Get data field)) || isBlankString (Get data field)
      then validateLoop data rest
             (errors ++ [lit "Missing required field: " ++ field])
      else
        let* validationError := validateField field (Get data field) in
        match validationError with
        | Some reason =>
            if isEmpty reason then validateLoop data rest errors
            else validateLoop data rest (errors ++ [field ++ lit ": " ++ reason])
        | None => validateLoop data rest errors
        end
  end.

Definition validateRequiredFields (data : object) (requiredFields : list jsstring)
  : completion (list jsstring) :=
  validateLoop data requiredFields [].

(** ** Security helpers *)

(** [false] is "bot detected". *)
Definition checkHoneypot (data : object) : completion bool :=
  let honey := Get data (lit "_honey") in
  let* filled :=
    if ToBoolean honey
    then let* trimmed := call_trim honey in Normal (negb (isEmpty trimmed))
    else Normal false in
  Normal (if filled then false else true).

(** [false] is "likely a bot".  [NaN < 2000] is false. *)
Definition checkTimestamp (rt : Runtime) (data : object) : completion bool :=
  let timestamp := Get data (lit "_timestamp") in
  if ToBoolean timestamp then
    let now := Date_now rt in
    let* text := ToStringU timestamp in
    match parseInt10 text with
    | Some t =>
        let submissionTime := now - t in
        Normal (if submissionTime <? 2000 then false else true)
    | None => Normal true
    end
  else Normal true.

Definition sanitizeInput (value : JS.value) : JS.value :=
  match value with
  | VStr s =>
      VStr (replaceAll 39 (lit "&#x27;")
             (replaceAll 34 (lit "&quot;")
               (replaceAll 62 (lit "&gt;")
                 (replaceAll 60 (lit "&lt;") s))))
  | _ => value
  end.

Definition sanitizeData (data : object) : object :=
  fold_left
    (fun sanitized entry =>
       match entry with
       | (key, value) =>
           if startsWith (lit "_") key then sanitized
           else Set_ sanitized key (sanitizeInput value)
       end)
    data [].

(** ** Response helpers *)

Record Response := {
  statusCode : Z;
  headers : list (jsstring * jsstring);
  body : jsstring
}.

Definition jsonResponse (statusCode : Z) (body : value) : Response :=
  {| statusCode := statusCode;
     headers :=
       [ (lit "Content-Type", lit "application/json");
         (lit "Access-Control-Allow-Origin", lit "*");
         (lit "Access-Control-Allow-Headers", lit "Content-Type");
         (lit "Access-Control-Allow-Methods", lit "POST, OPTIONS") ];
     body := JSON_stringify body |}.

(** [None] for an argument left out, which takes the default. *)
Definition successResponse (message : option jsstring) : Response :=
  let message :=
    match message with
    | Some m => m
    | None => lit "Form submitted successfully"
    end in
  jsonResponse 200
    (VObj [(lit "success", VBool true); (lit "message", VStr message)]).

Definition errorResponse (error : jsstring) (statusCode : option Z) : Response :=
  let statusCode := match statusCode with Some c => c | None => 400 end in
  jsonResponse statusCode
    (VObj [(lit "success", VBool false); (lit "error", VStr error)]).

(** ** Main handler *)

(** The named properties of a parsed value other than [null], as far as
    the names the handler reads go ([form_id], [_honey], [_timestamp], the
    required fields): a string, number, boolean or array has none. *)
Definition properties (data : value) : object :=
  match data with
  | VObj props => props
  | _ => []
  end.

(** From "Sanitize input data" to the end, for an entry [formConfig] of
    [FORM_CONFIGS] found under [key], the string [form_id] converts to. *)
Definition handler_action (rt : Runtime) (key : jsstring) (form_id : value)
    (formConfig : FormConfig) (data : object)
  : list effect * completion Response :=
  let sanitizedData := sanitizeData data in
  let sanitizedData := Set_ sanitizedData (lit "form_id") form_id in
  let sanitizedData :=
    Set_ sanitizedData (lit "submitted_at") (VStr (Date_toISOString rt)) in
  match onSuccess formConfig with
  | Some hook =>
      match hook sanitizedData with
      | Resolves =>
          ([Invoked key sanitizedData],
           Normal (successResponse
                     (Some (key ++ lit " form submitted successfully"))))
      | Fails e =>
          ([Invoked key sanitizedData; ConsoleError key e],
           Normal (errorResponse
                     (lit "Submission processing failed. Please try again.")
                     (Some 500)))
      end
  | None =>
      ([], Normal (successResponse
                     (Some (key ++ lit " form submitted successfully"))))
  end.

(** From "Validate required fields" to the end.  [formConfig] is truthy
    here; when it is an inherited member its [requiredFields] is
    [undefined], which [for ... of] refuses to iterate. *)
Definition handler_fields (rt : Runtime) (key : jsstring) (form_id : value)
    (formConfig : member FormConfig) (data : object)
  : list effect * completion Response :=
  match formConfig with
  | Own config =>
      match validateRequiredFields data (requiredFields config) with
      | Throw e => ([], Throw e)
      | Normal [] => handler_action rt key form_id config data
      | Normal validationErrors =>
          ([], Normal (errorResponse (join (lit "; ") validationErrors) None))
      end
  | _ => ([], Throw (TypeError "undefined is not iterable"))
  end.

(** From "Check if form_id is configured" to the end, for a truthy
    [form_id]. *)
Definition handler_form (hooks : Hooks) (rt : Runtime) (form_id : value)
    (data : object) : list effect * completion Response :=
  match ToPropertyKey (Some form_id) with
  | Throw e => ([], Throw e)
  | Normal key =>
      match Member (FORM_CONFIGS hooks) key with
      | Absent =>
          ([], Normal (errorResponse
                         (lit "Unknown form_id: " ++ key
                          ++ lit ". Available forms: "
                          ++ join (lit ", ") (Object_keys (FORM_CONFIGS hooks)))
                         None))
      | formConfig =>
          match checkHoneypot data with
          | Throw e => ([], Throw e)
          | Normal false => ([], Normal (successResponse None))
          | Normal true =>
              match checkTimestamp rt data with
              | Throw e => ([], Throw e)
              | Normal false =>
                  ([], Normal (errorResponse
                                 (lit "Please wait a moment before submitting")
                                 None))
              | Normal true => handler_fields rt key form_id formConfig data
              end
          end
      end
  end.

(** [exports.handler].  The result is what the invocation did and how the
    returned promise settles: fulfilled with a response, or rejected with
    an exception no [catch] of the handler covers. *)
Definition handler (hooks : Hooks) (rt : Runtime) (event : Event.t)
  : list effect * completion Response :=
  if streq (Event.httpMethod event) (lit "OPTIONS")
  then ([], Normal (jsonResponse 200 (VObj [])))
  else if negb (streq (Event.httpMethod event) (lit "POST"))
  then ([], Normal (errorResponse (lit "Method not allowed. Use POST.") (Some 405)))
  else
    match JSON_parse rt (Event.body event) with
    | None => ([], Normal (errorResponse (lit "Invalid JSON in request body") None))
    | Some VNull =>
        ([], Throw (TypeError "Cannot destructure property 'form_id' of 'data' as it is null."))
    | Some data =>
        let data := properties data in
        match Get data (lit "form_id") with
        | Some form_id =>
            if ToBoolean (Some form_id) then handler_form hooks rt form_id data
            else ([], Normal (errorResponse (lit "Missing form_id in request body") None))
        | None =>
            ([], Normal (errorResponse (lit "Missing form_id in request body") None))
        end
    end.

(* ================================================================== *)
(** * Vocabulary of the properties                                     *)
(* ================================================================== *)

(** The outcome of one invocation of the handler. *)
Definition outcome := (list effect * completion Response)%type.

(** No form's [onSuccess] was called. *)
Definition no_invocation (r : outcome) : Prop :=
  forall form d, ~ In (Invoked form d) (fst r).

(** A POST whose body parses to the object [data] and names, through a
    truthy [form_id] converting to [key], the entry [config] of
    [FORM_CONFIGS]: a submission to a configured form. *)
Record posted (hooks : Hooks) (rt : Runtime) (event : Event.t)
    (data : object) (form_id : value) (key : jsstring) (config : FormConfig)
  : Prop := {
  posted_method : Event.httpMethod event = lit "POST";
  posted_body : JSON_parse rt (Event.body event) = Some (VObj data);
  posted_form_id : Get data (lit "form_id") = Some form_id;
  posted_truthy : ToBoolean (Some form_id) = true;
  posted_key : ToPropertyKey (Some form_id) = Normal key;
  posted_config : ownProperty (FORM_CONFIGS hooks) key = Some config
}.

(** The data model's RawSubmission: every value is a string, a number or
    a boolean ([null] is let through as well). *)
Definition scalar (v : value) : bool :=
  match v with
  | VArr _ | VObj _ => false
  | _ => true
  end.

Definition RawSubmission (data : object) : Prop :=
  forallb (fun entry => scalar (snd entry)) data = true.

(** A key of the reserved, underscore-prefixed kind. *)
Definition control_key (k : jsstring) : bool := startsWith (lit "_") k.

(** ** Required-field validation, said in the words of the specification *)

(** The code's notion of a missing value: falsy ([undefined], [null],
    [false], [0], the empty string), or a string of white space only. *)
Definition missing (v : option value) : bool :=
  negb (ToBoolean v) || isBlankString v.

(** The specification's notion: absent, or a string that is empty after
    trimming. *)
Definition absent_or_blank (v : option value) : Prop :=
  v = None \/ exists s, v = Some (VStr s) /\ trim s = [].

Definition missing_message (field : jsstring) : jsstring :=
  lit "Missing required field: " ++ field.

(** The message one required field contributes, if any: the missing-field
    message, or the validator's reason behind the field's name. *)
Definition fieldError (data : object) (field : jsstring) : option jsstring :=
  if missing (Get data field) then Some (missing_message field)
  else
    match validateField field (Get data field) with
    | Normal (Some reason) =>
        if isEmpty reason then None else Some (field ++ lit ": " ++ reason)
    | _ => None
    end.

(** Every violated field's message, in the order the fields are declared. *)
Definition expectedErrors (data : object) (fields : list jsstring)
  : list jsstring :=
  flat_map (fun field => match fieldError data field with
                         | Some m => [m]
                         | None => []
                         end) fields.

(** ** The claims that fail as worded, as predicates on one invocation *)

(** Honeypot, as worded: a non-empty [_honey] string gets the silent
    success and no hook runs. *)
Definition honeypot_as_worded (hooks : Hooks) (rt : Runtime) (event : Event.t)
  : Prop :=
  forall data form_id key config honey,
    posted hooks rt event data form_id key config ->
    Get data (lit "_honey") = Some (VStr honey) ->
    isEmpty honey = false ->
    (exists message,
        snd (handler hooks rt event) = Normal (successResponse (Some message)))
    /\ no_invocation (handler hooks rt event).

(** Required fields, as worded: a field is reported missing exactly when
    its value is absent or a blank string. *)
Definition required_as_worded (data : object) (fields : list jsstring) : Prop :=
  forall field errors,
    In field fields ->
    validateRequiredFields data fields = Normal errors ->
    (In (missing_message field) errors <-> absent_or_blank (Get data field)).

(** A message that lists every configured form identifier. *)
Definition enumerates_forms (hooks : Hooks) (message : jsstring) : bool :=
  forallb (fun id => includes id message) (Object_keys (FORM_CONFIGS hooks)).

(** Form resolution, as worded: a POST body without a form identifier, or
    with one that is not configured, gets a 400 listing the identifiers. *)
Definition resolve_as_worded (hooks : Hooks) (rt : Runtime) (event : Event.t)
  : Prop :=
  forall data,
    Event.httpMethod event = lit "POST" ->
    JSON_parse rt (Event.body event) = Some data ->
    (Get (properties data) (lit "form_id") = None
     \/ exists form_id key,
          Get (properties data) (lit "form_id") = Some form_id
          /\ ToPropertyKey (Some form_id) = Normal key
          /\ ownProperty (FORM_CONFIGS hooks) key = None) ->
    exists message,
      snd (handler hooks rt event) = Normal (errorResponse message (Some 400))
      /\ enumerates_forms hooks message = true.

(** Validation errors, as worded: whenever required fields are violated,
    the handler answers 400 with all the messages joined. *)
Definition errors_as_worded (hooks : Hooks) (rt : Runtime) (event : Event.t)
  : Prop :=
  forall data form_id key config,
    posted hooks rt event data form_id key config ->
    expectedErrors data (requiredFields config) <> [] ->
    snd (handler hooks rt event)
    = Normal (errorResponse
                (join (lit "; ") (expectedErrors data (requiredFields config)))
                (Some 400)).


(** ** Concrete invocations *)

(** JSON text, written with ['] where the text has a double quote. *)
Definition text (s : string) : jsstring :=
  map (fun c => if N.eqb c 39 then 34%N else c) (lit s).

(** An engine that parses the given bodies to the given values and throws
    on any other, with its clock ten seconds into 2024. *)
Definition engine (parsed : list (jsstring * value)) : Runtime :=
  {| JSON_parse := ownProperty parsed;
     Date_now := 1704067210000;
     Date_toISOString := lit "2024-01-01T00:00:10.000Z" |}.

Definition POST (s : string) : Event.t :=
  {| Event.httpMethod := lit "POST"; Event.body := text s |}.

Definition str (s : string) : value := VStr (lit s).
Definition num (n : Z) : value := VNum (Dec n 0).

(** ** Auxiliary notions of the proofs *)

(** Neither of the four characters the sanitizer rewrites. *)
Definition inert (u : N) : Prop :=
  u <> 60%N /\ u <> 62%N /\ u <> 34%N /\ u <> 39%N.

(** What the handler does from the anti-spam checks on, for a submission
    to the configured form [config]. *)
Definition handler_checks (rt : Runtime) (key : jsstring) (form_id : value)
    (config : FormConfig) (data : object) : outcome :=
  match checkHoneypot data with
  | Throw e => ([], Throw e)
  | Normal false => ([], Normal (successResponse None))
  | Normal true =>
      match checkTimestamp rt data with
      | Throw e => ([], Throw e)
      | Normal false =>
          ([], Normal (errorResponse
                         (lit "Please wait a moment before submitting") None))
      | Normal true => handler_fields rt key form_id (Own config) data
      end
  end.

(** ** Sample invocations *)

Definition body_null : string := "null".
Definition body_numeric_honey : string := "{'form_id':'contact','_honey':5}".
Definition data_numeric_honey : object :=
  [(lit "form_id", str "contact"); (lit "_honey", num 5)].

Definition body_blank_honey : string :=
  "{'form_id':'newsletter','email':'x@y.com','_honey':' '}".
Definition data_blank_honey : object :=
  [(lit "form_id", str "newsletter"); (lit "email", str "x@y.com");
   (lit "_honey", str " ")].

Definition body_filled_honey : string :=
  "{'form_id':'newsletter','email':'x@y.com','_honey':'http://spam.example'}".
Definition data_filled_honey : object :=
  [(lit "form_id", str "newsletter"); (lit "email", str "x@y.com");
   (lit "_honey", str "http://spam.example")].

Definition body_fresh_timestamp : string :=
  "{'form_id':'newsletter','email':'x@y.com','_timestamp':'1704067209000'}".
Definition data_fresh_timestamp : object :=
  [(lit "form_id", str "newsletter"); (lit "email", str "x@y.com");
   (lit "_timestamp", str "1704067209000")].

Definition body_odd_timestamp : string :=
  "{'form_id':'newsletter','email':'x@y.com','_timestamp':'soon'}".
Definition data_odd_timestamp : object :=
  [(lit "form_id", str "newsletter"); (lit "email", str "x@y.com");
   (lit "_timestamp", str "soon")].

Definition body_zero_budget : string :=
  "{'form_id':'quote','name':'Ada','email':'ada@example.com','service_type':'web','budget':0}".
Definition data_zero_budget : object :=
  [(lit "form_id", str "quote"); (lit "name", str "Ada");
   (lit "email", str "ada@example.com"); (lit "service_type", str "web");
   (lit "budget", num 0)].

Definition body_bad_quote : string :=
  "{'form_id':'quote','name':'  ','email':'ada-at-example','service_type':'web','budget':false}".
Definition data_bad_quote : object :=
  [(lit "form_id", str "quote"); (lit "name", str "  ");
   (lit "email", str "ada-at-example"); (lit "service_type", str "web");
   (lit "budget", VBool false)].

Definition body_bot_contact : string := "{'form_id':'contact','_honey':'bot'}".
Definition data_bot_contact : object :=
  [(lit "form_id", str "contact"); (lit "_honey", str "bot")].


Definition body_newsletter : string :=
  "{'form_id':'newsletter','email':'x@y.com','_honey':''}".
Definition data_newsletter : object :=
  [(lit "form_id", str "newsletter"); (lit "email", str "x@y.com");
   (lit "_honey", str "")].

(** What the newsletter hook is called with for [data_newsletter]. *)
Definition sanitized_newsletter : object :=
  [(lit "form_id", str "newsletter"); (lit "email", str "x@y.com");
   (lit "submitted_at", str "2024-01-01T00:00:10.000Z")].

(** Hooks whose mailing-list service is down: the newsletter hook rejects
    with the service's message, the others resolve. *)
Definition failing_newsletter : Hooks :=
  fun form _ =>
    if streq form (lit "newsletter")
    then Fails (Raised (str "SMTP 535: bad credentials for admin@example.com"))
    else Resolves.

(** The characters a printed number is made of: digits, the point, the
    sign, and the [e] of the exponent. *)
Definition numeric (u : N) : Prop :=
  isDigit u = true \/ u = 46%N \/ u = 45%N \/ u = 43%N \/ u = 101%N.

(** A character [JSON.stringify] writes as it is, whatever follows. *)
Definition plain (c : N) : bool :=
  (32 <=? c)%N && negb (c =? 34)%N && negb (c =? 92)%N
  && negb (isLead c) && negb (isTrail c).

(** The message for a [form_id] that converts to the unknown [key]. *)
Definition unknown_message (key : jsstring) : jsstring :=
  lit "Unknown form_id: " ++ key
  ++ lit ". Available forms: contact, newsletter, quote, callback".

Definition body_empty_object : string := "{}".
Definition body_bogus_form : string := "{'form_id':'bogus'}".
Definition data_bogus_form : object := [(lit "form_id", str "bogus")].

(** The headers every response carries. *)
Definition fixed_headers : list (jsstring * jsstring) :=
  [ (lit "Content-Type", lit "application/json");
    (lit "Access-Control-Allow-Origin", lit "*");
    (lit "Access-Control-Allow-Headers", lit "Content-Type");
    (lit "Access-Control-Allow-Methods", lit "POST, OPTIONS") ].

Definition body_contact_bad_email : string :=
  "{'form_id':'contact','name':'A','email':'bad-email','message':'hi'}".
Definition data_contact_bad_email : object :=
  [(lit "form_id", str "contact"); (lit "name", str "A");
   (lit "email", str "bad-email"); (lit "message", str "hi")].

Definition body_inherited_form : string := "{'form_id':'constructor'}".
Definition data_inherited_form : object := [(lit "form_id", str "constructor")].

Definition body_markup : string :=
  "{'form_id':'callback','name':'<b>Bo</b>','phone':'+1 (555) 010-9999','_honey':''}".
Definition data_markup : object :=
  [(lit "form_id", str "callback"); (lit "name", str "<b>Bo</b>");
   (lit "phone", str "+1 (555) 010-9999"); (lit "_honey", str "")].

(* ================================================================== *)
(** * Vocabulary of the further properties                             *)
(* ================================================================== *)

From Stdlib Require DecimalPos.

(** ** What a pattern matches *)

(** The strings a pattern denotes, against which the derivative matcher
    [test] is checked. *)
Inductive matches : regex -> jsstring -> Prop :=
| matches_Empty : matches Empty []
| matches_Class (p : N -> bool) (c : N) : p c = true -> matches (Class p) [c]
| matches_Seq (r s : regex) (u v : jsstring) :
    matches r u -> matches s v -> matches (Seq r s) (u ++ v)
| matches_AltL (r s : regex) (u : jsstring) :
    matches r u -> matches (Alt r s) u
| matches_AltR (r s : regex) (u : jsstring) :
    matches s u -> matches (Alt r s) u
| matches_StarNil (r : regex) : matches (Star r) []
| matches_StarCons (r : regex) (u v : jsstring) :
    matches r u -> matches (Star r) v -> matches (Star r) (u ++ v).

(** A character of [[^\s@]]. *)
Definition addressChar (c : N) : bool := negb (isWhiteSpace c || N.eqb c 64).

(** A character of [[\d\s\-+()]]. *)
Definition phoneChar (c : N) : bool :=
  isDigit c || isWhiteSpace c || N.eqb c 45 || N.eqb c 43
  || N.eqb c 40 || N.eqb c 41.

(** [local@domain.tld]: three non-empty runs of address characters, the
    first two separated by [@], the last two by a dot. *)
Definition emailShaped (s : jsstring) : Prop :=
  exists local domain tld,
    s = local ++ [64%N] ++ domain ++ [46%N] ++ tld
    /\ local <> [] /\ domain <> [] /\ tld <> []
    /\ forallb addressChar local = true
    /\ forallb addressChar domain = true
    /\ forallb addressChar tld = true.

(** Between 7 and 20 phone characters. *)
Definition phoneShaped (s : jsstring) : Prop :=
  (7 <= List.length s <= 20)%nat /\ forallb phoneChar s = true.

(** ** Sample values of the further properties *)

(** The engine of the examples five seconds later. *)
Definition engine_later (parsed : list (jsstring * value)) : Runtime :=
  {| JSON_parse := ownProperty parsed;
     Date_now := 1704067215000;
     Date_toISOString := lit "2024-01-01T00:00:15.000Z" |}.

Definition data_numeric_timestamp : object :=
  [(lit "form_id", str "newsletter"); (lit "email", str "x@y.com");
   (lit "_timestamp", num 1704067209500)].

Definition data_contact_ok : object :=
  [(lit "form_id", str "contact"); (lit "name", str "Ada <ada>");
   (lit "email", str "ada@example.com"); (lit "message", str "Call me & soon");
   (lit "phone", str "not a phone"); (lit "_honey", str "");
   (lit "_timestamp", str "1704067200000")].
Definition body_contact_ok : string :=
  "{'form_id':'contact','name':'Ada <ada>','email':'ada@example.com','message':'Call me & soon','phone':'not a phone','_honey':'','_timestamp':'1704067200000'}".

(** What the contact hook is called with for [data_contact_ok]. *)
Definition sanitized_contact_ok : object :=
  [(lit "form_id", str "contact"); (lit "name", str "Ada &lt;ada&gt;");
   (lit "email", str "ada@example.com"); (lit "message", str "Call me & soon");
   (lit "phone", str "not a phone");
   (lit "submitted_at", str "2024-01-01T00:00:10.000Z")].

(** [data_contact_ok] with other optional and reserved fields. *)
Definition data_contact_other : object :=
  [(lit "form_id", str "contact"); (lit "name", str "Ada <ada>");
   (lit "email", str "ada@example.com"); (lit "message", str "Call me & soon");
   (lit "phone", num 5); (lit "company", VArr [VNull]);
   (lit "_honey", str "bot")].

(** ** Sanitizing, further *)

(** A string without any of the four characters the sanitizer rewrites:
    [<], [>], the double quote and the apostrophe. *)
Definition markupFree (s : jsstring) : bool :=
  forallb (fun u => negb (N.eqb u 60 || N.eqb u 62 || N.eqb u 34 || N.eqb u 39)) s.

(** One turn of the loop of [sanitizeData]. *)
Definition sanitizeEntry (sanitized : object) (entry : jsstring * value)
  : object :=
  match entry with
  | (key, value) =>
      if startsWith (lit "_") key then sanitized
      else Set_ sanitized key (sanitizeInput value)
  end.

(** No two properties of the object have the same key, as in every
    object the engine builds. *)
Fixpoint distinctKeys (o : object) : bool :=
  match o with
  | [] => true
  | (k, _) :: rest => negb (hasOwn rest k) && distinctKeys rest
  end.

(** What the loop of [sanitizeData] keeps true of the object it builds:
    distinct keys, none of them a control key, every value a sanitized
    one. *)
Definition sanitized_object (o : object) : Prop :=
  distinctKeys o = true
  /\ forall k v, In (k, v) o -> control_key k = false /\ sanitizeInput v = v.


(** ** Events the handler answers *)

(** [_honey] is absent, falsy or a string. *)
Definition honeyIsText (data : object) : bool :=
  match Get data (lit "_honey") with
  | Some (VStr _) => true
  | honey => negb (ToBoolean honey)
  end.

(** [form_id] converts to the name of a member of [Object.prototype]. *)
Definition namesInherited (data : object) : bool :=
  match ToPropertyKey (Get data (lit "form_id")) with
  | Normal key => existsb (streq key) Object_prototype
  | Throw _ => false
  end.

(** What [JSON.parse] made of the body is within the contract of the
    handler: it threw, or returned a value that is not [null] and, when
    an object, holds scalars only, a [_honey] that is absent, falsy or a
    string, and a [form_id] that does not name an inherited member. *)
Definition withinContract (parsed : option value) : bool :=
  match parsed with
  | Some VNull => false
  | Some (VObj data) =>
      forallb (fun entry => scalar (snd entry)) data
      && honeyIsText data && negb (namesInherited data)
  | _ => true
  end.

(* ================================================================== *)
(** * Properties                                                       *)
(* ================================================================== *)

(** ** Strings *)

Lemma streq_eq (a b : jsstring) : streq a b = true <-> a = b.
Proof.
  revert b; induction a as [|x a IH]; intros [|y b]; simpl; split;
    try congruence; try reflexivity.
  - intros H. apply andb_prop in H as [Hx Hab].
    apply N.eqb_eq in Hx. apply IH in Hab. congruence.
  - intros H. injection H as -> ->.
    rewrite N.eqb_refl. simpl. now apply IH.
Qed.

Lemma streq_refl (a : jsstring) : streq a a = true.
Proof. now apply streq_eq. Qed.

Lemma isEmpty_nil (s : jsstring) : isEmpty s = true <-> s = [].
Proof. destruct s; simpl; split; congruence. Qed.

(** ** Sanitizing *)

Section ReplaceAll.

Variable c : N.
Variable rep : jsstring.

Lemma replaceAll_fixed (s : jsstring) :
  Forall (fun u => u <> c) s -> replaceAll c rep s = s.
Proof.
  induction 1 as [|u s Hu _ IH]; simpl; [reflexivity|].
  fold (replaceAll c rep s). rewrite IH.
  destruct (N.eqb_spec u c); [contradiction|reflexivity].
Qed.

Lemma replaceAll_keeps (P : N -> Prop) (s : jsstring) :
  Forall P rep -> Forall P s -> Forall P (replaceAll c rep s).
Proof.
  intros Hrep. induction 1 as [|u s Hu _ IH]; simpl; [constructor|].
  fold (replaceAll c rep s). apply Forall_app; split; [|exact IH].
  destruct (N.eqb u c); [exact Hrep|now constructor].
Qed.

Lemma replaceAll_clears (s : jsstring) :
  Forall (fun u => u <> c) rep -> Forall (fun u => u <> c) (replaceAll c rep s).
Proof.
  intros Hrep. induction s as [|u s IH]; simpl; [constructor|].
  fold (replaceAll c rep s). apply Forall_app; split; [|exact IH].
  destruct (N.eqb_spec u c); [exact Hrep|now constructor].
Qed.

End ReplaceAll.

Lemma Forall_inert (s : jsstring) :
  Forall (fun u => u <> 60%N) s -> Forall (fun u => u <> 62%N) s ->
  Forall (fun u => u <> 34%N) s -> Forall (fun u => u <> 39%N) s ->
  Forall inert s.
Proof.
  induction s as [|u s IH]; intros H1 H2 H3 H4; constructor;
    inversion H1; inversion H2; inversion H3; inversion H4; subst.
  - now repeat split.
  - now apply IH.
Qed.

Lemma inert_not (c : N) (s : jsstring) :
  (c = 60 \/ c = 62 \/ c = 34 \/ c = 39)%N ->
  Forall inert s -> Forall (fun u => u <> c) s.
Proof.
  intros Hc H. eapply Forall_impl; [|exact H].
  intros u (H1 & H2 & H3 & H4).
  destruct Hc as [ -> | [ -> | [ -> | -> ] ] ]; assumption.
Qed.

(** What the four passes leave has none of the four characters. *)
Lemma sanitized_inert (s : jsstring) :
  Forall inert
    (replaceAll 39 (lit "&#x27;")
       (replaceAll 34 (lit "&quot;")
          (replaceAll 62 (lit "&gt;") (replaceAll 60 (lit "&lt;") s)))).
Proof.
  apply Forall_inert.
  - do 3 (apply replaceAll_keeps; [repeat constructor; discriminate|]).
    apply replaceAll_clears. repeat constructor; discriminate.
  - do 2 (apply replaceAll_keeps; [repeat constructor; discriminate|]).
    apply replaceAll_clears. repeat constructor; discriminate.
  - apply replaceAll_keeps; [repeat constructor; discriminate|].
    apply replaceAll_clears. repeat constructor; discriminate.
  - apply replaceAll_clears. repeat constructor; discriminate.
Qed.

Lemma sanitizeInput_inert (s : jsstring) :
  Forall inert s -> sanitizeInput (VStr s) = VStr s.
Proof.
  intros H. simpl.
  rewrite (replaceAll_fixed (c := 60)) by (apply inert_not; auto).
  rewrite (replaceAll_fixed (c := 62)) by (apply inert_not; auto).
  rewrite (replaceAll_fixed (c := 34)) by (apply inert_not; auto).
  rewrite (replaceAll_fixed (c := 39)) by (apply inert_not; auto 6).
  reflexivity.
Qed.

(** C7. Sanitizing is idempotent: on every value, sanitizing what
    [sanitizeInput] returned gives it back unchanged; in particular
    sanitizing [<script>] twice gives [&lt;script&gt;], the result of one
    pass, and no [&amp;lt;]. *)
Theorem sanitizeInput_idempotent :
  (forall v, sanitizeInput (sanitizeInput v) = sanitizeInput v)
  /\ sanitizeInput (sanitizeInput (str "<script>")) = str "&lt;script&gt;".
Proof.
  split; [|reflexivity].
  intros [| b | x | s | items | props]; try reflexivity.
  change (sanitizeInput (VStr s)) with
    (VStr (replaceAll 39 (lit "&#x27;")
             (replaceAll 34 (lit "&quot;")
                (replaceAll 62 (lit "&gt;") (replaceAll 60 (lit "&lt;") s))))).
  apply sanitizeInput_inert, sanitized_inert.
Qed.

(** ** The handler, stage by stage *)

Lemma handler_posted hooks rt event data form_id key config :
  posted hooks rt event data form_id key config ->
  handler hooks rt event = handler_checks rt key form_id config data.
Proof.
  intros [Hm Hb Hf Ht Hk Hc].
  unfold handler. rewrite Hm.
  change (streq (lit "POST") (lit "OPTIONS")) with false.
  change (streq (lit "POST") (lit "POST")) with true.
  cbv beta iota. simpl negb. cbv iota. rewrite Hb.
  simpl properties. rewrite Hf, Ht.
  unfold handler_form, Member. rewrite Hk, Hc. reflexivity.
Qed.

(** C1 (the code fails it). The handler does not always return an
    envelope: a POST whose body parses to [null] makes it throw at the
    destructuring of [form_id], and a submission to a configured form
    whose [_honey] is truthy and not a string makes it throw at the call
    of [trim]; neither exception is caught, and no hook has run. *)
Theorem handler_throws hooks rt event :
  Event.httpMethod event = lit "POST" ->
  (JSON_parse rt (Event.body event) = Some VNull ->
   exists e, handler hooks rt event = ([], Throw e))
  /\ (forall data form_id key config honey,
        posted hooks rt event data form_id key config ->
        Get data (lit "_honey") = Some honey ->
        ToBoolean (Some honey) = true ->
        isString honey = false ->
        exists e, handler hooks rt event = ([], Throw e)).
Proof.
  intros Hm. split.
  - intros Hb. unfold handler. rewrite Hm.
    change (streq (lit "POST") (lit "OPTIONS")) with false.
    change (streq (lit "POST") (lit "POST")) with true.
    cbv beta iota. simpl negb. cbv iota. rewrite Hb. eauto.
  - intros data form_id key config honey Hp Hh Ht Hs.
    rewrite (handler_posted Hp). unfold handler_checks, checkHoneypot.
    rewrite Hh, Ht.
    destruct honey; try discriminate; simpl; eauto.
Qed.

Lemma handler_throws_witness :
  (exists e,
      handler shipped (engine [(text body_null, VNull)]) (POST body_null)
      = ([], Throw e))
  /\ (exists e,
        handler shipped
          (engine [(text body_numeric_honey, VObj data_numeric_honey)])
          (POST body_numeric_honey)
        = ([], Throw e)).
Proof.
  split.
  - apply (handler_throws shipped (engine [(text body_null, VNull)])
             (POST body_null)); reflexivity.
  - apply (handler_throws shipped
             (engine [(text body_numeric_honey, VObj data_numeric_honey)])
             (POST body_numeric_honey) eq_refl)
      with (data := data_numeric_honey) (form_id := str "contact")
           (key := lit "contact")
           (config := {| requiredFields := map lit ["name"; "email"; "message"]%string;
                         optionalFields := map lit ["phone"; "company"]%string;
                         onSuccess := Some (shipped (lit "contact")) |})
           (honey := num 5);
      [constructor; reflexivity | reflexivity | reflexivity | reflexivity].
Defined.

(** The names the program reads on a submission or looks up among the
    validators are own names: no required field of a configured form is a
    member of [Object.prototype]. *)
Lemma schema_fields_own hooks key config field :
  ownProperty (FORM_CONFIGS hooks) key = Some config ->
  In field (requiredFields config) ->
  existsb (streq field) Object_prototype = false.
Proof.
  unfold FORM_CONFIGS. cbn [ownProperty].
  repeat match goal with
         | |- context [streq ?a key] =>
             destruct (streq a key);
             [intros [= <-]; cbn [requiredFields map In];
              intros H; repeat destruct H as [<-|H]; try reflexivity;
              contradiction|]
         end.
  discriminate.
Qed.

(** Whatever response the handler returns carries the fixed headers, one
    of four status codes and a JSON object as its body. *)
Lemma handler_envelope hooks rt event response :
  snd (handler hooks rt event) = Normal response ->
  headers response = fixed_headers
  /\ In (statusCode response) [200; 400; 405; 500]
  /\ exists envelope, body response = JSON_stringify (VObj envelope).
Proof.
  assert (Hjson : forall code envelope,
             In code [200; 400; 405; 500] ->
             headers (jsonResponse code (VObj envelope)) = fixed_headers
             /\ In (statusCode (jsonResponse code (VObj envelope)))
                  [200; 400; 405; 500]
             /\ exists e, body (jsonResponse code (VObj envelope))
                          = JSON_stringify (VObj e)).
  { intros code envelope Hcode. repeat split; [exact Hcode|].
    now exists envelope. }
  unfold handler, handler_form, handler_fields, handler_action, Member.
  repeat match goal with
         | |- context [match ?x with _ => _ end] => destruct x
         end;
    simpl snd; intros [= <-]; apply Hjson; simpl; tauto.
Qed.

(** ** Anti-spam checks *)

Lemma checkHoneypot_filled data honey :
  Get data (lit "_honey") = Some (VStr honey) ->
  isEmpty (trim honey) = false ->
  checkHoneypot data = Normal false.
Proof.
  intros Hh Ht. unfold checkHoneypot. rewrite Hh. simpl.
  destruct honey as [|c honey]; [discriminate|]. simpl.
  now rewrite Ht.
Qed.

(** C2 (as worded, false). A [_honey] of one space is not empty, yet the
    newsletter submission carrying it passes the honeypot check and its
    hook is called. *)
Lemma honeypot_blank_counterexample :
  ~ honeypot_as_worded shipped
      (engine [(text body_blank_honey, VObj data_blank_honey)])
      (POST body_blank_honey).
Proof.
  intros H.
  destruct (H data_blank_honey (str "newsletter") (lit "newsletter")
              {| requiredFields := map lit ["email"]%string;
                 optionalFields := map lit ["name"; "preferences"]%string;
                 onSuccess := Some (shipped (lit "newsletter")) |}
              (lit " ")) as [_ Hno];
    [constructor; reflexivity | reflexivity | reflexivity |].
  eapply Hno. vm_compute. left. reflexivity.
Qed.

(** C2 (amended). For every POST submission to a configured form whose
    [_honey] is a string that is not empty after trimming white space,
    the handler returns the 200 success response with the default message
    and calls no hook. *)
Theorem honeypot_silences hooks rt event data form_id key config honey :
  posted hooks rt event data form_id key config ->
  Get data (lit "_honey") = Some (VStr honey) ->
  isEmpty (trim honey) = false ->
  handler hooks rt event = ([], Normal (successResponse None))
  /\ statusCode (successResponse None) = 200
  /\ no_invocation (handler hooks rt event).
Proof.
  intros Hp Hh Ht.
  assert (E : handler hooks rt event = ([], Normal (successResponse None))).
  { rewrite (handler_posted Hp). unfold handler_checks.
    now rewrite (checkHoneypot_filled _ Hh Ht). }
  split; [exact E|]. split; [reflexivity|].
  rewrite E. intros form d [].
Qed.

Lemma honeypot_silences_witness :
  handler shipped
    (engine [(text body_filled_honey, VObj data_filled_honey)])
    (POST body_filled_honey)
  = ([], Normal (successResponse None))
  /\ statusCode (successResponse None) = 200
  /\ no_invocation
       (handler shipped
          (engine [(text body_filled_honey, VObj data_filled_honey)])
          (POST body_filled_honey)).
Proof.
  eapply (honeypot_silences (hooks := shipped)
            (data := data_filled_honey) (form_id := str "newsletter")
            (key := lit "newsletter") (honey := lit "http://spam.example"));
    [econstructor; reflexivity | reflexivity | reflexivity].
Defined.

Lemma checkTimestamp_fresh rt data timestamp text instant :
  Get data (lit "_timestamp") = Some timestamp ->
  ToBoolean (Some timestamp) = true ->
  ToString timestamp = Normal text ->
  parseInt10 text = Some instant ->
  Date_now rt - instant < 2000 ->
  checkTimestamp rt data = Normal false.
Proof.
  intros Hg Hb Hs Hp Hlt. unfold checkTimestamp.
  rewrite Hg, Hb. simpl ToStringU. rewrite Hs. simpl bind. rewrite Hp.
  apply Z.ltb_lt in Hlt. now rewrite Hlt.
Qed.

(** A falsy [_timestamp] from which [parseInt] reads an instant is the
    number zero, and the instant is the epoch: [null], [false] and the
    empty string give NaN. *)
Lemma falsy_timestamp_epoch timestamp text instant :
  ToBoolean (Some timestamp) = false ->
  ToString timestamp = Normal text ->
  parseInt10 text = Some instant ->
  instant = 0.
Proof.
  destruct timestamp as [| [|] | [[|m|m] e] | [|c s] | items | props];
    cbn [ToBoolean isZero isEmpty negb ToString Number_toString];
    try discriminate; intros _ [= <-]; vm_compute; congruence.
Qed.

(** C3. For every POST submission to a configured form that passes the
    honeypot check, on a server whose clock reads at least 2000 ms after
    the epoch, if [_timestamp] is present and the clock of the server is
    less than 2000 ms past the instant [parseInt] reads from it, the
    handler returns the 400 error asking to wait and calls no hook.  (The
    check is skipped for a falsy [_timestamp]; the only falsy value with
    an instant is [0], the epoch, which is 2000 ms or more in the past
    of such a clock.) *)
Theorem timestamp_rejects hooks rt event data form_id key config
    timestamp text instant :
  2000 <= Date_now rt ->
  posted hooks rt event data form_id key config ->
  checkHoneypot data = Normal true ->
  Get data (lit "_timestamp") = Some timestamp ->
  ToString timestamp = Normal text ->
  parseInt10 text = Some instant ->
  Date_now rt - instant < 2000 ->
  handler hooks rt event
  = ([], Normal (errorResponse (lit "Please wait a moment before submitting")
                   (Some 400)))
  /\ no_invocation (handler hooks rt event).
Proof.
  intros Hclock Hp Hh Hg Hs Hi Hlt.
  assert (Hb : ToBoolean (Some timestamp) = true).
  { destruct (ToBoolean (Some timestamp)) eqn:Hb; [reflexivity|].
    pose proof (falsy_timestamp_epoch _ Hb Hs Hi). lia. }
  assert (E : handler hooks rt event
              = ([], Normal (errorResponse
                               (lit "Please wait a moment before submitting")
                               (Some 400)))).
  { rewrite (handler_posted Hp). unfold handler_checks. rewrite Hh.
    now rewrite (checkTimestamp_fresh rt _ Hg Hb Hs Hi Hlt). }
  split; [exact E|]. rewrite E. intros form d [].
Qed.

Lemma timestamp_rejects_witness :
  handler shipped
    (engine [(text body_fresh_timestamp, VObj data_fresh_timestamp)])
    (POST body_fresh_timestamp)
  = ([], Normal (errorResponse (lit "Please wait a moment before submitting")
                   (Some 400)))
  /\ no_invocation
       (handler shipped
          (engine [(text body_fresh_timestamp, VObj data_fresh_timestamp)])
          (POST body_fresh_timestamp)).
Proof.
  eapply (timestamp_rejects (hooks := shipped)
            (data := data_fresh_timestamp) (form_id := str "newsletter")
            (key := lit "newsletter") (timestamp := str "1704067209000")
            (text := lit "1704067209000") (instant := 1704067209000));
    [vm_compute; discriminate | econstructor; reflexivity | reflexivity
    | reflexivity | reflexivity | reflexivity | reflexivity].
Defined.

(** C10. For every submission whose [_timestamp] is present and is read
    by [parseInt] as NaN, the timestamp check passes ([checkTimestamp]
    returns [true]); and a submission to a configured form that got to
    this check, the honeypot check passed, goes on to the validation of
    its required fields. *)
Theorem timestamp_unparsable_passes rt data timestamp text :
  Get data (lit "_timestamp") = Some timestamp ->
  ToString timestamp = Normal text ->
  parseInt10 text = None ->
  checkTimestamp rt data = Normal true
  /\ (forall hooks event form_id key config,
        posted hooks rt event data form_id key config ->
        checkHoneypot data = Normal true ->
        handler hooks rt event
        = handler_fields rt key form_id (Own config) data).
Proof.
  intros Hg Hs Hp.
  assert (E : checkTimestamp rt data = Normal true).
  { unfold checkTimestamp. rewrite Hg.
    destruct (ToBoolean (Some timestamp)); [|reflexivity].
    simpl ToStringU. rewrite Hs. simpl bind. now rewrite Hp. }
  split; [exact E|].
  intros hooks event form_id key config Hposted Hh.
  rewrite (handler_posted Hposted). unfold handler_checks.
  now rewrite Hh, E.
Qed.

Lemma timestamp_unparsable_passes_witness :
  checkTimestamp
    (engine [(text body_odd_timestamp, VObj data_odd_timestamp)])
    data_odd_timestamp = Normal true
  /\ handler shipped
       (engine [(text body_odd_timestamp, VObj data_odd_timestamp)])
       (POST body_odd_timestamp)
     = handler_fields
         (engine [(text body_odd_timestamp, VObj data_odd_timestamp)])
         (lit "newsletter") (str "newsletter")
         (Own {| requiredFields := map lit ["email"]%string;
                 optionalFields := map lit ["name"; "preferences"]%string;
                 onSuccess := Some (shipped (lit "newsletter")) |})
         data_odd_timestamp.
Proof.
  destruct (timestamp_unparsable_passes
              (engine [(text body_odd_timestamp, VObj data_odd_timestamp)])
              data_odd_timestamp (timestamp := str "soon")
              (text := lit "soon") eq_refl eq_refl eq_refl) as [Hc Hh].
  split; [exact Hc|].
  apply Hh; [constructor; reflexivity | reflexivity].
Defined.

(** ** Required-field validation *)

Lemma Get_In (data : object) (k : jsstring) (v : value) :
  Get data k = Some v -> In (k, v) data.
Proof.
  unfold Get. induction data as [|[k' v'] data IH]; simpl; [discriminate|].
  destruct (streq k' k) eqn:E.
  - intros [= ->]. apply streq_eq in E as ->. now left.
  - intros H. right. now apply IH.
Qed.

Lemma RawSubmission_scalar (data : object) (k : jsstring) (v : value) :
  RawSubmission data -> Get data k = Some v -> scalar v = true.
Proof.
  intros Hraw Hg. unfold RawSubmission in Hraw.
  rewrite forallb_forall in Hraw. exact (Hraw _ (Get_In _ _ Hg)).
Qed.

Lemma ToStringU_scalar (data : object) (k : jsstring) :
  RawSubmission data -> exists s, ToStringU (Get data k) = Normal s.
Proof.
  intros Hraw. destruct (Get data k) as [v|] eqn:Hg; [|simpl; eauto].
  pose proof (RawSubmission_scalar _ Hraw Hg) as Hs.
  destruct v as [| [|] | x | s | items | props]; try discriminate; simpl; eauto.
Qed.

(** The validators never throw on a submission of scalars. *)
Lemma validateField_scalar (data : object) (field : jsstring) :
  RawSubmission data ->
  exists r, validateField field (Get data field) = Normal r.
Proof.
  intros Hraw. destruct (ToStringU_scalar field Hraw) as [s Hs].
  unfold validateField, validators. cbn [ownProperty].
  destruct (streq (lit "email") field).
  - rewrite Hs. simpl. eauto.
  - destruct (streq (lit "phone") field); [|eauto].
    destruct (negb (ToBoolean (Get data field))); [eauto|].
    rewrite Hs. simpl. eauto.
Qed.

(** A validator's verdict names its field and one of the two reasons. *)
Lemma validateField_reason (field : jsstring) (v : option value) (reason : jsstring) :
  validateField field v = Normal (Some reason) ->
  (field = lit "email" /\ reason = lit "Invalid email format")
  \/ (field = lit "phone" /\ reason = lit "Invalid phone format").
Proof.
  unfold validateField, validators. cbn [ownProperty].
  destruct (streq (lit "email") field) eqn:Ee.
  - apply streq_eq in Ee as <-. destruct (ToStringU v); simpl; [|discriminate].
    destruct (test emailRegex a); intros [= <-]. now left.
  - destruct (streq (lit "phone") field) eqn:Ep; [|discriminate].
    apply streq_eq in Ep as <-.
    destruct (negb (ToBoolean v)); [discriminate|].
    destruct (ToStringU v); simpl; [|discriminate].
    destruct (test phoneRegex a); intros [= <-]. now right.
Qed.

(** The loop appends to [errors] the message of every violated field, in
    the order of [fields], provided no validator throws. *)
Lemma validateLoop_collects (data : object) (fields : list jsstring) :
  (forall field, In field fields ->
     exists r, validateField field (Get data field) = Normal r) ->
  forall errors,
    validateLoop data fields errors
    = Normal (errors ++ expectedErrors data fields).
Proof.
  induction fields as [|field rest IH]; intros Hok errors; simpl.
  - now rewrite app_nil_r.
  - assert (Hrest : forall f, In f rest ->
                      exists r, validateField f (Get data f) = Normal r)
      by (intros f Hf; apply Hok; now right).
    specialize (IH Hrest).
    unfold fieldError, missing.
    destruct (negb (ToBoolean (Get data field)) || isBlankString (Get data field)).
    + rewrite IH, <- app_assoc. reflexivity.
    + destruct (Hok field (or_introl eq_refl)) as [r Hr]. rewrite Hr. simpl.
      destruct r as [reason|]; [|now rewrite IH].
      destruct (isEmpty reason); rewrite IH; [reflexivity|].
      now rewrite <- app_assoc.
Qed.

Lemma validateRequiredFields_collects (data : object) (fields : list jsstring) :
  RawSubmission data ->
  validateRequiredFields data fields = Normal (expectedErrors data fields).
Proof.
  intros Hraw. unfold validateRequiredFields.
  rewrite validateLoop_collects; [reflexivity|].
  intros field _. now apply validateField_scalar.
Qed.

Lemma In_expectedErrors (data : object) (fields : list jsstring) (m : jsstring) :
  In m (expectedErrors data fields)
  <-> exists field, In field fields /\ fieldError data field = Some m.
Proof.
  unfold expectedErrors. rewrite in_flat_map. split.
  - intros (field & Hin & Hm). exists field. split; [exact Hin|].
    destruct (fieldError data field); simpl in Hm; [|contradiction].
    destruct Hm as [->|[]]. reflexivity.
  - intros (field & Hin & Hm). exists field. split; [exact Hin|].
    rewrite Hm. now left.
Qed.

(** Only a missing field yields the missing-field message, and the message
    names it. *)
Lemma fieldError_missing (data : object) (field name : jsstring) :
  fieldError data field = Some (missing_message name) ->
  field = name /\ missing (Get data field) = true.
Proof.
  unfold fieldError. destruct (missing (Get data field)).
  - intros [= H]. now split.
  - destruct (validateField field (Get data field)) as [[reason|]|] eqn:Hv;
      try discriminate.
    destruct (isEmpty reason); [discriminate|].
    intros [= H]. exfalso.
    destruct (validateField_reason _ _ Hv) as [[-> _]|[-> _]]; discriminate H.
Qed.

(** C4 (as worded, false). The quote form's [budget] is the number [0]:
    present, and not a string, yet validation reports it missing. *)
Lemma required_zero_counterexample :
  ~ required_as_worded data_zero_budget
      (map lit ["name"; "email"; "service_type"; "budget"]%string).
Proof.
  intros H.
  assert (Hin : In (missing_message (lit "budget"))
                  [missing_message (lit "budget")]) by now left.
  apply (H (lit "budget") [missing_message (lit "budget")]) in Hin;
    [| simpl; tauto | reflexivity].
  destruct Hin as [Habsent | (s & Hs & _)]; discriminate.
Qed.

(** C4 (amended). For every submission of scalars and every required
    field of a configured form, validation returns a list of errors in
    which "Missing required field: <name>" appears for that field if and
    only if its value is falsy (absent, [null], [false], the number [0],
    the empty string) or a string that is empty after trimming; the value
    of a field that is not missing goes to the field validators, whose
    rejection is reported behind the field's name. *)
Theorem required_field_missing hooks key config data field :
  ownProperty (FORM_CONFIGS hooks) key = Some config ->
  In field (requiredFields config) ->
  RawSubmission data ->
  exists errors,
    validateRequiredFields data (requiredFields config) = Normal errors
    /\ (In (missing_message field) errors <-> missing (Get data field) = true)
    /\ (missing (Get data field) = false ->
        forall reason,
          validateField field (Get data field) = Normal (Some reason) ->
          In (field ++ lit ": " ++ reason) errors).
Proof.
  intros _ Hin Hraw.
  exists (expectedErrors data (requiredFields config)).
  split; [now apply validateRequiredFields_collects|]. split.
  - rewrite In_expectedErrors. split.
    + intros (f & _ & Hf). now apply fieldError_missing in Hf as [-> Hm].
    + intros Hm. exists field. split; [exact Hin|].
      unfold fieldError. now rewrite Hm.
  - intros Hm reason Hv. apply In_expectedErrors. exists field.
    split; [exact Hin|]. unfold fieldError. rewrite Hm, Hv.
    now destruct (validateField_reason _ _ Hv) as [[_ ->]|[_ ->]].
Qed.

Lemma required_field_missing_witness :
  exists errors,
    validateRequiredFields data_bad_quote
      (map lit ["name"; "email"; "service_type"; "budget"]%string)
    = Normal errors
    /\ (In (missing_message (lit "budget")) errors
        <-> missing (Get data_bad_quote (lit "budget")) = true)
    /\ (missing (Get data_bad_quote (lit "budget")) = false ->
        forall reason,
          validateField (lit "budget") (Get data_bad_quote (lit "budget"))
          = Normal (Some reason) ->
          In (lit "budget" ++ lit ": " ++ reason) errors).
Proof.
  apply (@required_field_missing shipped (lit "quote")
           {| requiredFields :=
                map lit ["name"; "email"; "service_type"; "budget"]%string;
              optionalFields :=
                map lit ["phone"; "company"; "details"; "timeline"]%string;
              onSuccess := Some (shipped (lit "quote")) |}
           data_bad_quote (lit "budget"));
    [reflexivity | simpl; tauto | reflexivity].
Defined.

(** ** Validation errors in the response *)

(** C6 (as worded, false). A contact submission with all three required
    fields missing and the honeypot filled is answered with the silent
    200, not with the 400 that joins the errors. *)
Lemma errors_bot_counterexample :
  ~ errors_as_worded shipped
      (engine [(text body_bot_contact, VObj data_bot_contact)])
      (POST body_bot_contact).
Proof.
  intros H.
  specialize (H data_bot_contact (str "contact") (lit "contact")
                {| requiredFields := map lit ["name"; "email"; "message"]%string;
                   optionalFields := map lit ["phone"; "company"]%string;
                   onSuccess := Some (shipped (lit "contact")) |}).
  assert (Hp : posted shipped
                 (engine [(text body_bot_contact, VObj data_bot_contact)])
                 (POST body_bot_contact) data_bot_contact (str "contact")
                 (lit "contact")
                 {| requiredFields := map lit ["name"; "email"; "message"]%string;
                    optionalFields := map lit ["phone"; "company"]%string;
                    onSuccess := Some (shipped (lit "contact")) |})
    by (constructor; reflexivity).
  specialize (H Hp). vm_compute in H.
  assert (Hne : forall A (x : A) l, x :: l <> []) by (intros; discriminate).
  specialize (H (Hne _ _ _)). discriminate H.
Qed.

(** C6 (amended). For every submission of scalars to a configured form
    that passes both anti-spam checks and violates one or more required
    fields, validation returns the message of every violated field, none
    left out, in the order the schema declares the fields, and the handler
    returns them joined by "; " in one 400 error, calling no hook. *)
Theorem validation_errors_joined hooks rt event data form_id key config :
  posted hooks rt event data form_id key config ->
  RawSubmission data ->
  checkHoneypot data = Normal true ->
  checkTimestamp rt data = Normal true ->
  expectedErrors data (requiredFields config) <> [] ->
  validateRequiredFields data (requiredFields config)
  = Normal (expectedErrors data (requiredFields config))
  /\ handler hooks rt event
     = ([], Normal (errorResponse
                      (join (lit "; ") (expectedErrors data (requiredFields config)))
                      (Some 400))).
Proof.
  intros Hp Hraw Hh Ht Hne.
  pose proof (validateRequiredFields_collects (requiredFields config) Hraw) as Hv.
  split; [exact Hv|].
  rewrite (handler_posted Hp). unfold handler_checks. rewrite Hh, Ht.
  unfold handler_fields. rewrite Hv.
  destruct (expectedErrors data (requiredFields config)); [contradiction|].
  reflexivity.
Qed.

Lemma validation_errors_joined_witness :
  validateRequiredFields data_bad_quote
    (map lit ["name"; "email"; "service_type"; "budget"]%string)
  = Normal [lit "Missing required field: name";
            lit "email: Invalid email format";
            lit "Missing required field: budget"]
  /\ handler shipped
       (engine [(text body_bad_quote, VObj data_bad_quote)])
       (POST body_bad_quote)
     = ([], Normal (errorResponse
                      (lit "Missing required field: name; email: Invalid email format; Missing required field: budget")
                      (Some 400))).
Proof.
  apply (@validation_errors_joined shipped
           (engine [(text body_bad_quote, VObj data_bad_quote)])
           (POST body_bad_quote) data_bad_quote (str "quote") (lit "quote")
           {| requiredFields :=
                map lit ["name"; "email"; "service_type"; "budget"]%string;
              optionalFields :=
                map lit ["phone"; "company"; "details"; "timeline"]%string;
              onSuccess := Some (shipped (lit "quote")) |});
    [constructor; reflexivity | reflexivity | reflexivity | reflexivity
    | discriminate].
Defined.

(** ** The success action *)

(** Every entry of the table holds the hook of its own key. *)
Lemma config_hook hooks key config :
  ownProperty (FORM_CONFIGS hooks) key = Some config ->
  onSuccess config = Some (hooks key).
Proof.
  unfold FORM_CONFIGS. cbn [ownProperty].
  repeat match goal with
         | |- context [streq ?a key] =>
             let E := fresh "E" in
             destruct (streq a key) eqn:E;
             [apply streq_eq in E as <-; now intros [= <-]|]
         end.
  discriminate.
Qed.

(** What reaching the success action takes: a submission to a configured
    form that passed both checks and the validation, and the sanitized
    copy the hook is handed. *)
Lemma handler_invoked hooks rt event key d :
  In (Invoked key d) (fst (handler hooks rt event)) ->
  exists data form_id config,
    posted hooks rt event data form_id key config
    /\ validateRequiredFields data (requiredFields config) = Normal []
    /\ d = Set_ (Set_ (sanitizeData data) (lit "form_id") form_id)
             (lit "submitted_at") (VStr (Date_toISOString rt))
    /\ handler hooks rt event = handler_action rt key form_id config data.
Proof.
  unfold handler.
  destruct (streq (Event.httpMethod event) (lit "OPTIONS")); [intros []|].
  destruct (streq (Event.httpMethod event) (lit "POST")) eqn:Hpost;
    [|intros []].
  apply streq_eq in Hpost. simpl negb. cbv iota.
  destruct (JSON_parse rt (Event.body event)) as [parsed|] eqn:Hparse;
    [|intros []].
  destruct parsed as [| b | x | s | items | data]; try (intros []).
  simpl properties.
  destruct (Get data (lit "form_id")) as [form_id|] eqn:Hid; [|intros []].
  destruct (ToBoolean (Some form_id)) eqn:Htruthy; [|intros []].
  unfold handler_form.
  destruct (ToPropertyKey (Some form_id)) as [key'|] eqn:Hkey; [|intros []].
  unfold Member.
  destruct (ownProperty (FORM_CONFIGS hooks) key') as [config|] eqn:Hconfig.
  - destruct (checkHoneypot data) as [[|]|]; try (intros []).
    destruct (checkTimestamp rt data) as [[|]|]; try (intros []).
    unfold handler_fields.
    destruct (validateRequiredFields data (requiredFields config))
      as [[|m errors]|] eqn:Hvalid; try (intros []).
    unfold handler_action. rewrite (config_hook _ _ Hconfig).
    intros Hin. exists data, form_id, config.
    assert (Hd : key' = key
                 /\ d = Set_ (Set_ (sanitizeData data) (lit "form_id") form_id)
                          (lit "submitted_at") (VStr (Date_toISOString rt))).
    { destruct (hooks key' _); simpl in Hin.
      - destruct Hin as [[= -> ->]|[]]. now split.
      - destruct Hin as [[= -> ->]|[H|[]]]; [now split|discriminate H]. }
    destruct Hd as [-> ->].
    repeat split; try assumption. now rewrite (config_hook _ _ Hconfig).
  - destruct (existsb (streq key') Object_prototype).
    + destruct (checkHoneypot data) as [[|]|]; try (intros []).
      destruct (checkTimestamp rt data) as [[|]|]; intros [].
    + intros [].
Qed.

(** C8. For every submission that reaches the success action, if the
    form's hook throws or rejects, whatever the cause, the handler logs it
    with [console.error] and returns the 500 error whose body is the one
    fixed text, in which the cause has no part. *)
Theorem hook_failure_hidden hooks rt event key d cause :
  In (Invoked key d) (fst (handler hooks rt event)) ->
  hooks key d = Fails cause ->
  handler hooks rt event
  = ([Invoked key d; ConsoleError key cause],
     Normal (errorResponse
               (lit "Submission processing failed. Please try again.")
               (Some 500)))
  /\ statusCode (errorResponse
                   (lit "Submission processing failed. Please try again.")
                   (Some 500)) = 500
  /\ body (errorResponse
             (lit "Submission processing failed. Please try again.")
             (Some 500))
     = text "{'success':false,'error':'Submission processing failed. Please try again.'}".
Proof.
  intros Hin Hfail.
  destruct (handler_invoked _ _ _ _ _ Hin)
    as (data & form_id & config & Hp & _ & Hd & Hrun).
  split; [|split; reflexivity].
  rewrite Hrun. unfold handler_action.
  rewrite (config_hook _ _ (posted_config Hp)), <- Hd, Hfail. reflexivity.
Qed.

Lemma hook_failure_hidden_witness :
  handler failing_newsletter
    (engine [(text body_newsletter, VObj data_newsletter)])
    (POST body_newsletter)
  = ([Invoked (lit "newsletter") sanitized_newsletter;
      ConsoleError (lit "newsletter")
        (Raised (str "SMTP 535: bad credentials for admin@example.com"))],
     Normal (errorResponse
               (lit "Submission processing failed. Please try again.")
               (Some 500))).
Proof.
  apply (@hook_failure_hidden failing_newsletter
           (engine [(text body_newsletter, VObj data_newsletter)])
           (POST body_newsletter) (lit "newsletter") sanitized_newsletter
           (Raised (str "SMTP 535: bad credentials for admin@example.com")));
    [vm_compute; left; reflexivity | reflexivity].
Defined.

(** ** Objects *)

Lemma Get_Set_ (o : object) (k k' : jsstring) (v : value) :
  Get (Set_ o k v) k' = if streq k k' then Some v else Get o k'.
Proof.
  unfold Get. induction o as [|[k0 v0] o IH]; cbn [Set_ ownProperty].
  - reflexivity.
  - destruct (streq k0 k) eqn:E0; cbn [ownProperty].
    + apply streq_eq in E0 as ->. now destruct (streq k k').
    + rewrite IH. destruct (streq k0 k') eqn:E1; [|reflexivity].
      apply streq_eq in E1 as ->.
      destruct (streq k k') eqn:E2; [|reflexivity].
      apply streq_eq in E2 as ->. now rewrite streq_refl in E0.
Qed.


(** ** The sanitized submission *)


(** ** Printed numbers *)

Lemma uint_units_numeric (u : Decimal.uint) : Forall numeric (uint_units u).
Proof.
  induction u; simpl; constructor; try assumption; left; reflexivity.
Qed.

Lemma dropWhile_Forall (P : N -> Prop) (p : N -> bool) (s : jsstring) :
  Forall P s -> Forall P (dropWhile p s).
Proof.
  induction 1 as [|c s Hc Hs IH]; simpl; [constructor|].
  destruct (p c); [exact IH|now constructor].
Qed.

Lemma firstn_Forall (P : N -> Prop) (n : nat) (s : jsstring) :
  Forall P s -> Forall P (firstn n s).
Proof.
  intros H. revert n. induction H as [|c s Hc Hs IH]; intros [|n]; simpl;
    constructor; auto.
Qed.

Lemma skipn_Forall (P : N -> Prop) (n : nat) (s : jsstring) :
  Forall P s -> Forall P (skipn n s).
Proof.
  intros H. revert n. induction H as [|c s Hc Hs IH]; intros [|n]; simpl;
    auto.
Qed.

Lemma zeros_numeric (n : Z) : Forall numeric (zeros n).
Proof.
  unfold zeros. induction (Z.to_nat n); simpl; constructor;
    [left; reflexivity|assumption].
Qed.

Lemma format_positive_numeric (p : positive) (e : Z) :
  Forall numeric (format_positive p e).
Proof.
  assert (Hlit : forall u, In u [46; 45; 43; 101]%N -> numeric u).
  { intros u [<-|[<-|[<-|[<-|[]]]]]; unfold numeric; tauto. }
  assert (Hd : forall q, Forall numeric (digits q))
    by (intros q; apply uint_units_numeric).
  assert (Hds : Forall numeric (rev (dropWhile (N.eqb 48) (rev (digits p))))).
  { apply Forall_rev, dropWhile_Forall, Forall_rev, Hd. }
  unfold format_positive.
  set (ds := rev (dropWhile (N.eqb 48) (rev (digits p)))) in *.
  repeat match goal with |- context [if ?b then _ else _] => destruct b end.
  - apply Forall_app; split; [exact Hds|apply zeros_numeric].
  - apply Forall_app; split; [now apply firstn_Forall|].
    constructor; [apply Hlit; simpl; tauto|now apply skipn_Forall].
  - constructor; [left; reflexivity|].
    constructor; [apply Hlit; simpl; tauto|].
    apply Forall_app; split; [apply zeros_numeric|exact Hds].
  - destruct ds as [|d [|d' rest]]; [constructor| |].
    + inversion Hds; subst. constructor; [assumption|].
      constructor; [apply Hlit; simpl; tauto|].
      constructor; [apply Hlit; simpl; tauto|apply Hd].
    + inversion Hds; subst. constructor; [assumption|].
      constructor; [apply Hlit; simpl; tauto|].
      apply Forall_app; split; [assumption|].
      constructor; [apply Hlit; simpl; tauto|].
      constructor; [apply Hlit; simpl; tauto|apply Hd].
  - destruct ds as [|d [|d' rest]]; [constructor| |].
    + inversion Hds; subst. constructor; [assumption|].
      constructor; [apply Hlit; simpl; tauto|].
      constructor; [apply Hlit; simpl; tauto|apply Hd].
    + inversion Hds; subst. constructor; [assumption|].
      constructor; [apply Hlit; simpl; tauto|].
      apply Forall_app; split; [assumption|].
      constructor; [apply Hlit; simpl; tauto|].
      constructor; [apply Hlit; simpl; tauto|apply Hd].
Qed.

Lemma Number_toString_numeric (x : number) : Forall numeric (Number_toString x).
Proof.
  destruct x as [[|p|p] e]; simpl.
  - repeat constructor.
  - apply format_positive_numeric.
  - constructor; [unfold numeric; tauto|apply format_positive_numeric].
Qed.





(** ** Substrings, and what [JSON.stringify] keeps of them *)

Lemma startsWith_app (sub s : jsstring) : startsWith sub (sub ++ s) = true.
Proof.
  induction sub as [|c sub IH]; simpl; [reflexivity|].
  now rewrite N.eqb_refl, IH.
Qed.

Lemma startsWith_prefix (sub s t : jsstring) :
  startsWith sub s = true -> startsWith sub (s ++ t) = true.
Proof.
  revert s. induction sub as [|c sub IH]; intros [|d s]; simpl;
    try reflexivity; try discriminate.
  intros H. apply andb_prop in H as [-> H]. now apply IH.
Qed.

Lemma startsWith_split (sub s : jsstring) :
  startsWith sub s = true -> exists t, s = sub ++ t.
Proof.
  revert s. induction sub as [|c sub IH]; intros s; simpl.
  - intros _. now exists s.
  - destruct s as [|d s]; [discriminate|].
    intros H. apply andb_prop in H as [Hc H]. apply N.eqb_eq in Hc as ->.
    destruct (IH _ H) as [t ->]. now exists t.
Qed.

Lemma includes_unfold (sub s : jsstring) :
  includes sub s
  = startsWith sub s
    || match s with [] => false | _ :: rest => includes sub rest end.
Proof. destruct s; reflexivity. Qed.

Lemma includes_app_r (sub s t : jsstring) :
  includes sub t = true -> includes sub (s ++ t) = true.
Proof.
  intros H. induction s as [|c s IH]; [exact H|].
  rewrite includes_unfold. cbn [app]. rewrite IH. apply orb_true_r.
Qed.

Lemma includes_split (sub s : jsstring) :
  includes sub s = true -> exists a b, s = a ++ sub ++ b.
Proof.
  induction s as [|c s IH]; rewrite includes_unfold; intros H;
    apply orb_prop in H as [H|H].
  - destruct (startsWith_split _ _ H) as [t ->]. now exists [], t.
  - discriminate.
  - destruct (startsWith_split _ _ H) as [t ->]. now exists [], t.
  - destruct (IH H) as (a & b & ->). now exists (c :: a), b.
Qed.

Lemma includes_middle (sub a b : jsstring) : includes sub (a ++ sub ++ b) = true.
Proof.
  apply includes_app_r. rewrite includes_unfold, startsWith_app. reflexivity.
Qed.

Ltac quote_case c :=
  repeat match goal with
         | |- context [if ?b then _ else _] =>
             lazymatch b with
             | isTrail _ => fail
             | isLead _ => fail
             | _ => destruct b
             end
         end.

(** Quoting a string that ends in [s] ends in the quoting of [s], when [s]
    does not open with the second half of a surrogate pair. *)
Lemma quoteBody_suffix (n : nat) :
  forall a s,
    (List.length a <= n)%nat ->
    (forall d rest, s = d :: rest -> isTrail d = false) ->
    exists p, quoteBody (a ++ s) = p ++ quoteBody s.
Proof.
  induction n as [|n IH]; intros a s Hlen Hs.
  - destruct a; [now exists []|simpl in Hlen; lia].
  - destruct a as [|c a]; [now exists []|].
    simpl in Hlen.
    assert (Ha : exists p, quoteBody (a ++ s) = p ++ quoteBody s)
      by (apply IH; [lia|exact Hs]).
    destruct Ha as [pa Ha].
    cbn [app quoteBody].
    quote_case c;
      try (rewrite Ha;
           match goal with
           | |- exists p, ?x ++ pa ++ ?q = _ =>
               exists (x ++ pa); now rewrite <- app_assoc
           | |- exists p, ?x :: ?y :: pa ++ ?q = _ => now exists (x :: y :: pa)
           | |- exists p, ?x :: pa ++ ?q = _ => now exists (x :: pa)
           end).
    destruct (isLead c).
    + destruct a as [|d a]; cbn [app].
      * destruct s as [|d rest]; cbv iota.
        -- exists (unicodeEscape c). cbn [quoteBody]. now rewrite app_nil_r.
        -- rewrite (Hs d rest eq_refl). now exists (unicodeEscape c).
      * destruct (isTrail d).
        -- destruct (IH a s) as [p Hp]; [simpl in Hlen; lia|exact Hs|].
           rewrite Hp. now exists (c :: d :: p).
        -- cbn [app] in Ha. rewrite Ha.
           exists (unicodeEscape c ++ pa). now rewrite <- app_assoc.
    + destruct (isTrail c); rewrite Ha.
      * exists (unicodeEscape c ++ pa). now rewrite <- app_assoc.
      * now exists (c :: pa).
Qed.

Lemma plain_quoted (c : N) (s : jsstring) :
  plain c = true -> quoteBody (c :: s) = c :: quoteBody s.
Proof.
  unfold plain. intros H.
  repeat (apply andb_prop in H as [H ?]).
  repeat match goal with
         | H : negb _ = true |- _ => apply negb_true_iff in H
         end.
  apply N.leb_le in H.
  cbn [quoteBody].
  repeat match goal with
         | |- context [N.eqb c ?k] =>
             destruct (N.eqb_spec c k); [subst; try discriminate; lia|]
         end.
  destruct (N.ltb_spec c 32); [lia|].
  match goal with Hl : isLead c = false |- _ => rewrite Hl end.
  match goal with Ht : isTrail c = false |- _ => rewrite Ht end.
  reflexivity.
Qed.

Lemma quoteBody_plain (sub s : jsstring) :
  forallb plain sub = true -> quoteBody (sub ++ s) = sub ++ quoteBody s.
Proof.
  induction sub as [|c sub IH]; [reflexivity|].
  cbn [forallb app]. intros H. apply andb_prop in H as [Hc H].
  now rewrite plain_quoted, IH.
Qed.

Lemma plain_not_trail (c : N) : plain c = true -> isTrail c = false.
Proof.
  unfold plain. intros H. apply andb_prop in H as [_ H].
  now apply negb_true_iff.
Qed.

(** A plain word of the message is still there in the body of the error
    response. *)
Lemma includes_error_body (sub message : jsstring) (code : option Z) :
  forallb plain sub = true ->
  includes sub message = true ->
  includes sub (body (errorResponse message code)) = true.
Proof.
  intros Hplain Hin.
  destruct sub as [|c sub]; [now rewrite includes_unfold|].
  destruct (includes_split _ _ Hin) as (a & b & ->).
  destruct (@quoteBody_suffix _ a ((c :: sub) ++ b) (le_n _)) as [p Hp].
  { cbn [app]. intros d rest [= <- _]. cbn [forallb] in Hplain.
    apply andb_prop in Hplain as [Hc _]. now apply plain_not_trail. }
  unfold errorResponse, jsonResponse. cbn [body JSON_stringify map join].
  unfold quote at 3. rewrite Hp, (quoteBody_plain _ _ Hplain).
  repeat rewrite <- app_assoc.
  repeat first [apply includes_middle | apply includes_app_r].
Qed.

(** ** Form resolution *)

Lemma unknown_message_enumerates hooks key :
  enumerates_forms hooks (unknown_message key) = true.
Proof.
  unfold enumerates_forms, unknown_message.
  change (Object_keys (FORM_CONFIGS hooks))
    with [lit "contact"; lit "newsletter"; lit "quote"; lit "callback"].
  cbn [forallb].
  repeat (rewrite includes_app_r;
          [|apply includes_app_r; reflexivity]).
  reflexivity.
Qed.

(** C5 (as worded, false). The body [{}] has no form identifier; the
    handler answers 400 with "Missing form_id in request body", a message
    that names no configured form. *)
Lemma resolve_missing_counterexample :
  ~ resolve_as_worded shipped
      (engine [(text body_empty_object, VObj [])])
      (POST body_empty_object).
Proof.
  intros H.
  destruct (H (VObj []) eq_refl eq_refl (or_introl eq_refl))
    as (message & Hr & He).
  unfold enumerates_forms in He.
  change (Object_keys (FORM_CONFIGS shipped))
    with [lit "contact"; lit "newsletter"; lit "quote"; lit "callback"] in He.
  cbn [forallb] in He. apply andb_prop in He as [Hc _].
  pose proof (@includes_error_body (lit "contact") message (Some 400)
                eq_refl Hc) as Hbody.
  change (snd (handler shipped
                 (engine [(text body_empty_object, VObj [])])
                 (POST body_empty_object)))
    with (Normal (errorResponse (lit "Missing form_id in request body") None))
    in Hr.
  assert (Hb : body (errorResponse (lit "Missing form_id in request body") None)
               = body (errorResponse message (Some 400))).
  { exact (f_equal (fun c => match c with
                             | Normal r => body r
                             | Throw _ => []
                             end) Hr). }
  rewrite <- Hb in Hbody. vm_compute in Hbody. discriminate Hbody.
Qed.

(** C5 (amended). For every POST body that parses to a value other than
    [null]: when its [form_id] is absent or falsy the handler returns the
    400 error "Missing form_id in request body", which lists no
    identifier; when its [form_id] is truthy and converts to a key that
    is neither a configured identifier nor a name inherited from
    [Object.prototype], the handler returns the 400 error whose message
    repeats the key and enumerates all configured identifiers. *)
Theorem form_resolution hooks rt event data :
  Event.httpMethod event = lit "POST" ->
  JSON_parse rt (Event.body event) = Some data ->
  data <> VNull ->
  (ToBoolean (Get (properties data) (lit "form_id")) = false ->
   handler hooks rt event
   = ([], Normal (errorResponse (lit "Missing form_id in request body")
                    (Some 400))))
  /\ (forall form_id key,
        Get (properties data) (lit "form_id") = Some form_id ->
        ToBoolean (Some form_id) = true ->
        ToPropertyKey (Some form_id) = Normal key ->
        Member (FORM_CONFIGS hooks) key = Absent ->
        handler hooks rt event
        = ([], Normal (errorResponse (unknown_message key) (Some 400)))
        /\ enumerates_forms hooks (unknown_message key) = true).
Proof.
  intros Hm Hb Hnull.
  assert (E : handler hooks rt event
              = match Get (properties data) (lit "form_id") with
                | Some form_id =>
                    if ToBoolean (Some form_id)
                    then handler_form hooks rt form_id (properties data)
                    else ([], Normal (errorResponse
                                        (lit "Missing form_id in request body")
                                        None))
                | None =>
                    ([], Normal (errorResponse
                                   (lit "Missing form_id in request body")
                                   None))
                end).
  { unfold handler. rewrite Hm.
    change (streq (lit "POST") (lit "OPTIONS")) with false.
    change (streq (lit "POST") (lit "POST")) with true.
    cbv beta iota. simpl negb. cbv iota. rewrite Hb.
    destruct data; [contradiction| | | | |]; reflexivity. }
  split.
  - intros Hfalsy. rewrite E.
    destruct (Get (properties data) (lit "form_id")) as [form_id|];
      [|reflexivity].
    now rewrite Hfalsy.
  - intros form_id key Hid Htruthy Hkey Habsent.
    split; [|apply unknown_message_enumerates].
    rewrite E, Hid, Htruthy. unfold handler_form. rewrite Hkey, Habsent.
    reflexivity.
Qed.

Lemma form_resolution_witness :
  handler shipped (engine [(text body_empty_object, VObj [])])
    (POST body_empty_object)
  = ([], Normal (errorResponse (lit "Missing form_id in request body")
                   (Some 400)))
  /\ handler shipped
       (engine [(text body_bogus_form, VObj data_bogus_form)])
       (POST body_bogus_form)
     = ([], Normal (errorResponse (unknown_message (lit "bogus")) (Some 400)))
  /\ enumerates_forms shipped (unknown_message (lit "bogus")) = true.
Proof.
  assert (Hobject : forall props, VObj props <> VNull) by discriminate.
  destruct (@form_resolution shipped
              (engine [(text body_empty_object, VObj [])])
              (POST body_empty_object) (VObj [])
              eq_refl eq_refl (Hobject _)) as [Hmissing _].
  destruct (@form_resolution shipped
              (engine [(text body_bogus_form, VObj data_bogus_form)])
              (POST body_bogus_form) (VObj data_bogus_form)
              eq_refl eq_refl (Hobject _)) as [_ Hunknown].
  split.
  - apply Hmissing. reflexivity.
  - apply (Hunknown (str "bogus") (lit "bogus")); reflexivity.
Defined.

(* ================================================================== *)
(** * Worked examples                                                  *)
(* ================================================================== *)

(** The preflight probe is answered with an empty object, whatever the
    body. *)
Example options_preflight :
  handler shipped (engine [])
    {| Event.httpMethod := lit "OPTIONS"; Event.body := [] |}
  = ([], Normal {| statusCode := 200; headers := fixed_headers;
                   body := text "{}" |}).
Proof. reflexivity. Qed.

Example get_refused :
  handler shipped (engine [])
    {| Event.httpMethod := lit "GET"; Event.body := [] |}
  = ([], Normal {| statusCode := 405; headers := fixed_headers;
                   body := text "{'success':false,'error':'Method not allowed. Use POST.'}" |}).
Proof. reflexivity. Qed.

(** A body the engine cannot parse. *)
Example malformed_body :
  handler shipped (engine []) (POST "{'form_id':")
  = ([], Normal {| statusCode := 400; headers := fixed_headers;
                   body := text "{'success':false,'error':'Invalid JSON in request body'}" |}).
Proof. reflexivity. Qed.

(** The newsletter example of the specification: the hook receives the
    e-mail, the form identifier and the time of submission. *)
Example newsletter_accepted :
  handler shipped (engine [(text body_newsletter, VObj data_newsletter)])
    (POST body_newsletter)
  = ([Invoked (lit "newsletter") sanitized_newsletter],
     Normal {| statusCode := 200; headers := fixed_headers;
               body := text "{'success':true,'message':'newsletter form submitted successfully'}" |}).
Proof. reflexivity. Qed.

(** The contact example of the specification. *)
Example contact_bad_email :
  handler shipped
    (engine [(text body_contact_bad_email, VObj data_contact_bad_email)])
    (POST body_contact_bad_email)
  = ([], Normal {| statusCode := 400; headers := fixed_headers;
                   body := text "{'success':false,'error':'email: Invalid email format'}" |}).
Proof. reflexivity. Qed.

(** Markup in a value reaches the hook escaped; the honeypot field does
    not reach it at all. *)
Example markup_escaped :
  fst (handler shipped (engine [(text body_markup, VObj data_markup)])
         (POST body_markup))
  = [Invoked (lit "callback")
       [(lit "form_id", str "callback");
        (lit "name", str "&lt;b&gt;Bo&lt;/b&gt;");
        (lit "phone", str "+1 (555) 010-9999");
        (lit "submitted_at", str "2024-01-01T00:00:10.000Z")]].
Proof. reflexivity. Qed.

(** A [form_id] that names a member every object inherits is taken for a
    configuration without required fields to iterate. *)
Example inherited_form_throws :
  handler shipped
    (engine [(text body_inherited_form, VObj data_inherited_form)])
    (POST body_inherited_form)
  = ([], Throw (TypeError "undefined is not iterable")).
Proof. reflexivity. Qed.

Example email_pattern :
  map (fun s => test emailRegex (lit s))
    ["x@y.com"; "a@b.c.d"; "bad-email"; "a@b"; "a b@c.d"; "a@@b.c"; "@b.c"]%string
  = [true; true; false; false; false; false; false].
Proof. reflexivity. Qed.

Example phone_pattern :
  map (fun s => test phoneRegex (lit s))
    ["+1 (555) 010-9999"; "1234567"; "123456"; "123456789012345678901";
     "555-CALL-NOW"]%string
  = [true; true; false; false; false].
Proof. reflexivity. Qed.

Example numbers_print :
  map Number_toString
    [Dec 1704067200000 0; Dec 15 (-1); Dec 1 21; Dec 1 (-7); Dec (-12) (-6); Dec 0 3]
  = map lit ["1704067200000"; "1.5"; "1e+21"; "1e-7"; "-0.000012"; "0"]%string.
Proof. reflexivity. Qed.

Example parseInt_reads :
  map (fun s => parseInt10 (lit s))
    ["1704067200000"; "  42px"; "-7.9"; "1e+21"; "soon"; ""]%string
  = [Some 1704067200000; Some 42; Some (-7); Some 1; None; None].
Proof. reflexivity. Qed.

(* ================================================================== *)
(** * Further properties                                               *)
(* ================================================================== *)

(** ** The pattern matcher *)

Lemma nullable_matches (r : regex) : nullable r = true <-> matches r [].
Proof.
  induction r as [| | p | r IHr s IHs | r IHr s IHs | r IHr]; simpl.
  - split; [discriminate|]. intros H. inversion H.
  - split; [intros _; constructor|reflexivity].
  - split; [discriminate|]. intros H. inversion H.
  - rewrite andb_true_iff, IHr, IHs. split.
    + intros [Hr Hs]. exact (matches_Seq Hr Hs).
    + intros H. inversion H; subst.
      match goal with
      | E : _ ++ _ = [] |- _ => apply app_eq_nil in E as [-> ->]
      end.
      now split.
  - rewrite orb_true_iff, IHr, IHs. split.
    + intros [H|H]; [now apply matches_AltL|now apply matches_AltR].
    + intros H. inversion H; subst; tauto.
  - split; [intros _; constructor|reflexivity].
Qed.

Lemma seq_matches (r s : regex) (u : jsstring) :
  matches (seq r s) u <-> matches (Seq r s) u.
Proof.
  destruct r; simpl; try reflexivity.
  - split; intros H; inversion H; subst.
    match goal with H : matches Never _ |- _ => inversion H end.
  - split.
    + intros H. exact (matches_Seq matches_Empty H).
    + intros H. inversion H; subst.
      match goal with Hu : matches Empty _ |- _ => inversion Hu; subst end.
      assumption.
Qed.

Lemma alt_matches (r s : regex) (u : jsstring) :
  matches (alt r s) u <-> matches (Alt r s) u.
Proof.
  assert (Hn : forall v, ~ matches Never v) by (intros v H; inversion H).
  destruct r, s; simpl; try reflexivity;
    (split;
     [intros H; first [now apply matches_AltL | now apply matches_AltR]
     |intros H; inversion H; subst; try assumption;
      exfalso; eapply Hn; eassumption]).
Qed.

Lemma star_cons (r : regex) (c : N) (u : jsstring) :
  matches (Star r) (c :: u) ->
  exists u1 u2, u = u1 ++ u2 /\ matches r (c :: u1) /\ matches (Star r) u2.
Proof.
  intros H. remember (Star r) as sr eqn:Er. remember (c :: u) as w eqn:Ew.
  induction H as [| | | | | |r0 u0 v Hu _ Hv IHv]; try discriminate.
  injection Er as Er. subst r0.
  destruct u0 as [|c0 u0]; simpl in Ew.
  - apply IHv; [reflexivity|exact Ew].
  - injection Ew as Ec Eu. subst c0 u. exists u0, v. now repeat split.
Qed.

Lemma derive_matches (c : N) (r : regex) :
  forall u, matches (derive c r) u <-> matches r (c :: u).
Proof.
  induction r as [| | p | r IHr s IHs | r IHr s IHs | r IHr]; intros u;
    cbn [derive].
  - split; intros H; inversion H.
  - split; intros H; inversion H.
  - destruct (p c) eqn:Hp; split; intros H.
    + inversion H; subst. now constructor.
    + inversion H; subst. constructor.
    + inversion H.
    + inversion H; subst. congruence.
  - assert (Hleft : matches (seq (derive c r) s) u
                    <-> exists u1 u2, u = u1 ++ u2 /\ matches r (c :: u1)
                                      /\ matches s u2).
    { rewrite seq_matches. split.
      - intros H. inversion H; subst.
        match goal with
        | H1 : matches (derive c r) ?u1, H2 : matches s ?u2 |- _ =>
            exists u1, u2; rewrite <- IHr; now repeat split
        end.
      - intros (u1 & u2 & -> & H1 & H2). apply matches_Seq; [|exact H2].
        now apply IHr. }
    assert (Hseq : matches (Seq r s) (c :: u)
                   <-> (exists u1 u2, u = u1 ++ u2 /\ matches r (c :: u1)
                                      /\ matches s u2)
                       \/ (matches r [] /\ matches s (c :: u))).
    { split.
      - intros H. inversion H; subst.
        match goal with
        | H1 : matches r ?u1, H2 : matches s ?u2, E : ?u1 ++ ?u2 = c :: u |- _ =>
            destruct u1 as [|c1 u1]; simpl in *;
            [right; split; [assumption|now rewrite E in *]
            |injection E as Ec Eu; subst c1 u; left; now exists u1, u2]
        end.
      - intros [(u1 & u2 & -> & H1 & H2)|[H1 H2]].
        + exact (matches_Seq H1 H2).
        + exact (matches_Seq H1 H2). }
    rewrite Hseq. destruct (nullable r) eqn:Hn.
    + rewrite alt_matches. apply nullable_matches in Hn. split.
      * intros H. inversion H; subst.
        -- left. now apply Hleft.
        -- right. split; [exact Hn|]. now apply IHs.
      * intros [H|[_ H]].
        -- apply matches_AltL. now apply Hleft.
        -- apply matches_AltR. now apply IHs.
    + rewrite Hleft. split; [tauto|].
      intros [H|[H _]]; [exact H|].
      apply nullable_matches in H. congruence.
  - rewrite alt_matches. split.
    + intros H. inversion H; subst.
      * apply matches_AltL. now apply IHr.
      * apply matches_AltR. now apply IHs.
    + intros H. inversion H; subst.
      * apply matches_AltL. now apply IHr.
      * apply matches_AltR. now apply IHs.
  - rewrite seq_matches. split.
    + intros H. inversion H; subst.
      match goal with
      | H1 : matches (derive c r) _, H2 : matches (Star r) _ |- _ =>
          apply IHr in H1; exact (matches_StarCons H1 H2)
      end.
    + intros H. destruct (star_cons H) as (u1 & u2 & -> & H1 & H2).
      apply matches_Seq; [|exact H2]. now apply IHr.
Qed.

(** The matcher decides the language of the pattern. *)
Lemma test_matches (r : regex) (s : jsstring) :
  test r s = true <-> matches r s.
Proof.
  unfold test. revert r. induction s as [|c s IH]; intros r; simpl.
  - apply nullable_matches.
  - rewrite IH. apply derive_matches.
Qed.

(** ** The languages of the two patterns *)

Lemma class_matches (p : N -> bool) (s : jsstring) :
  matches (Class p) s <-> exists c, s = [c] /\ p c = true.
Proof.
  split.
  - intros H. inversion H; subst. eauto.
  - intros (c & -> & Hc). now constructor.
Qed.

Lemma star_class_matches (p : N -> bool) (s : jsstring) :
  matches (Star (Class p)) s <-> forallb p s = true.
Proof.
  split.
  - intros H. remember (Star (Class p)) as r eqn:Er.
    induction H as [| | | | | |r0 u v Hu _ Hv IHv]; try discriminate.
    + reflexivity.
    + injection Er as Er. subst r0. inversion Hu; subst.
      cbn [app forallb]. rewrite IHv by reflexivity.
      match goal with Hc : p _ = true |- _ => now rewrite Hc end.
  - induction s as [|c s IH]; cbn [forallb]; intros H.
    + constructor.
    + apply andb_prop in H as [Hc Hs].
      exact (matches_StarCons (matches_Class p c Hc) (IH Hs)).
Qed.

Lemma plus_class_matches (p : N -> bool) (s : jsstring) :
  matches (Plus (Class p)) s <-> s <> [] /\ forallb p s = true.
Proof.
  unfold Plus. split.
  - intros H. inversion H; subst.
    match goal with
    | H1 : matches (Class p) _, H2 : matches (Star (Class p)) _ |- _ =>
        inversion H1; subst; apply star_class_matches in H2
    end.
    cbn [app forallb]. split; [discriminate|].
    now apply andb_true_intro.
  - intros [Hne Hall]. destruct s as [|c s]; [contradiction|].
    cbn [forallb] in Hall. apply andb_prop in Hall as [Hc Hs].
    change (c :: s) with ([c] ++ s).
    apply matches_Seq; [now constructor|now apply star_class_matches].
Qed.

Lemma emailRegex_matches (s : jsstring) :
  matches emailRegex s <-> emailShaped s.
Proof.
  unfold emailRegex, emailShaped.
  change notSpaceOrAt with (Class addressChar). split.
  - intros H.
    inversion H as [| |r1 s1 local rest1 Hlocal H1| | | |]; subst.
    inversion H1 as [| |r2 s2 at_ rest2 Hat H2| | | |]; subst.
    inversion H2 as [| |r3 s3 domain rest3 Hdomain H3| | | |]; subst.
    inversion H3 as [| |r4 s4 dot tld Hdot Htld| | | |]; subst.
    apply plus_class_matches in Hlocal as [? ?].
    apply plus_class_matches in Hdomain as [? ?].
    apply plus_class_matches in Htld as [? ?].
    apply class_matches in Hat as (a & -> & Ha).
    apply class_matches in Hdot as (d & -> & Hd).
    apply N.eqb_eq in Ha as <-. apply N.eqb_eq in Hd as <-.
    exists local, domain, tld. now repeat split.
  - intros (local & domain & tld & -> & Hl & Hd & Ht & Al & Ad & At).
    apply matches_Seq; [now apply plus_class_matches|].
    apply matches_Seq; [now constructor|].
    apply matches_Seq; [now apply plus_class_matches|].
    apply matches_Seq; [now constructor|now apply plus_class_matches].
Qed.

Lemma atMost_class_matches (p : N -> bool) (n : nat) (s : jsstring) :
  matches (atMost (Class p) n) s
  <-> (List.length s <= n)%nat /\ forallb p s = true.
Proof.
  revert s. induction n as [|n IH]; intros s; cbn [atMost].
  - split.
    + intros H. inversion H; subst. split; [apply le_n|reflexivity].
    + intros [Hlen _]. destruct s; [constructor|simpl in Hlen; lia].
  - split.
    + intros H. inversion H; subst.
      * match goal with H1 : matches Empty _ |- _ => inversion H1; subst end.
        split; [simpl; lia|reflexivity].
      * match goal with H1 : matches (Seq _ _) _ |- _ => inversion H1; subst end.
        match goal with
        | H1 : matches (Class p) _, H2 : matches (atMost _ _) _ |- _ =>
            inversion H1; subst; apply IH in H2 as [Hlen Hall]
        end.
        cbn [app forallb List.length]. split; [lia|].
        now apply andb_true_intro.
    + intros [Hlen Hall]. destruct s as [|c s].
      * apply matches_AltL. constructor.
      * cbn [forallb List.length] in *. apply andb_prop in Hall as [Hc Hs].
        apply matches_AltR. change (c :: s) with ([c] ++ s).
        apply matches_Seq; [now constructor|]. apply IH. split; [lia|exact Hs].
Qed.

Lemma copies_class_matches (p : N -> bool) (n : nat) (then_ : regex)
    (s : jsstring) :
  matches (copies (Class p) n then_) s
  <-> exists u v, s = u ++ v /\ List.length u = n /\ forallb p u = true
                  /\ matches then_ v.
Proof.
  revert s. induction n as [|n IH]; intros s; cbn [copies].
  - split.
    + intros H. now exists [], s.
    + intros (u & v & -> & Hlen & _ & H). now destruct u.
  - split.
    + intros H. inversion H; subst.
      match goal with
      | H1 : matches (Class p) _, H2 : matches (copies _ _ _) _ |- _ =>
          inversion H1; subst;
          apply IH in H2 as (u' & v' & -> & Hlen & Hall & Hv)
      end.
      match goal with
      | Hc : p ?c = true |- _ => exists (c :: u'), v'; cbn [forallb]; rewrite Hc
      end.
      repeat split; [simpl; lia|exact Hall|exact Hv].
    + intros (u & v & -> & Hlen & Hall & Hv).
      destruct u as [|c u]; [discriminate|].
      cbn [forallb List.length] in *. apply andb_prop in Hall as [Hc Hu].
      change ((c :: u) ++ v) with ([c] ++ (u ++ v)).
      apply matches_Seq; [now constructor|]. apply IH.
      exists u, v. repeat split; [lia|exact Hu|exact Hv].
Qed.

Lemma phoneRegex_matches (s : jsstring) :
  matches phoneRegex s <-> phoneShaped s.
Proof.
  unfold phoneRegex, phoneShaped, Between.
  change (Class _) with (Class phoneChar).
  rewrite copies_class_matches. split.
  - intros (u & v & -> & Hlen & Hu & Hv).
    apply atMost_class_matches in Hv as [Hvlen Hv].
    rewrite length_app, forallb_app, Hu, Hv. simpl in Hvlen. split; [lia|reflexivity].
  - intros [Hlen Hall].
    exists (firstn 7 s), (skipn 7 s).
    rewrite <- (firstn_skipn 7 s) in Hall. rewrite forallb_app in Hall.
    apply andb_prop in Hall as [H1 H2].
    repeat split.
    + now rewrite firstn_skipn.
    + rewrite length_firstn. lia.
    + exact H1.
    + apply atMost_class_matches. split; [|exact H2].
      rewrite length_skipn. simpl. lia.
Qed.

(** ** The field validators *)

Lemma validateField_email (v : option value) :
  validateField (lit "email") v
  = (let* s := ToStringU v in
     Normal (if test emailRegex s then None
             else Some (lit "Invalid email format"))).
Proof. reflexivity. Qed.

Lemma validateField_phone (v : option value) :
  validateField (lit "phone") v
  = (if negb (ToBoolean v) then Normal None
     else
       let* s := ToStringU v in
       Normal (if test phoneRegex s then None
               else Some (lit "Invalid phone format"))).
Proof. reflexivity. Qed.

(** X1. The e-mail validator accepts a string exactly when it has the
    shape local@domain.tld: three non-empty runs without white space or
    [@], the first two separated by one [@] and the last two by a dot; it
    answers "Invalid email format" for every other string and never
    throws on a string. *)
Theorem email_validator_language (s : jsstring) :
  (validateField (lit "email") (Some (VStr s)) = Normal None <-> emailShaped s)
  /\ (validateField (lit "email") (Some (VStr s)) = Normal None
      \/ validateField (lit "email") (Some (VStr s))
         = Normal (Some (lit "Invalid email format"))).
Proof.
  rewrite validateField_email. cbn [ToStringU ToString bind].
  rewrite <- emailRegex_matches, <- test_matches.
  destruct (test emailRegex s).
  - split; [|now left]. split; reflexivity.
  - split; [|now right]. split; discriminate.
Qed.

(** X2. The phone validator accepts a string exactly when it is empty or
    consists of 7 to 20 characters among digits, white space, [-], [+],
    [(] and [)]; it answers "Invalid phone format" for every other string
    and never throws on a string. *)
Theorem phone_validator_language (s : jsstring) :
  (validateField (lit "phone") (Some (VStr s)) = Normal None
   <-> s = [] \/ phoneShaped s)
  /\ (validateField (lit "phone") (Some (VStr s)) = Normal None
      \/ validateField (lit "phone") (Some (VStr s))
         = Normal (Some (lit "Invalid phone format"))).
Proof.
  rewrite validateField_phone. destruct s as [|c s].
  - cbn. split; [|now left]. split; [now left|reflexivity].
  - cbn [ToBoolean isEmpty negb ToStringU ToString bind].
    rewrite <- phoneRegex_matches, <- test_matches.
    destruct (test phoneRegex (c :: s)).
    + split; [|now left]. split; [now right|reflexivity].
    + split; [|now right]. split; [discriminate|].
      intros [H|H]; discriminate.
Qed.

Lemma emailShaped_at (s : jsstring) : emailShaped s -> In 64%N s.
Proof.
  intros (local & domain & tld & -> & _). apply in_or_app. right. now left.
Qed.

Lemma numeric_no_at (s : jsstring) : Forall numeric s -> ~ In 64%N s.
Proof.
  intros H Hin. rewrite Forall_forall in H.
  destruct (H _ Hin) as [Hd|[Hd|[Hd|[Hd|Hd]]]]; discriminate Hd.
Qed.

(** X3. A required e-mail that is a number, a boolean or [null] is never
    accepted and never makes the validator throw: the answer is "Invalid
    email format". *)
Theorem email_rejects_non_strings (v : value) :
  scalar v = true ->
  isString v = false ->
  validateField (lit "email") (Some v)
  = Normal (Some (lit "Invalid email format")).
Proof.
  intros Hs Hn. rewrite validateField_email.
  destruct v as [| [|] | x | s | items | props]; try discriminate;
    try reflexivity.
  cbn [ToStringU ToString bind].
  destruct (test emailRegex (Number_toString x)) eqn:Ht; [|reflexivity].
  exfalso. apply test_matches, emailRegex_matches, emailShaped_at in Ht.
  exact (numeric_no_at (Number_toString_numeric x) Ht).
Qed.

Lemma email_rejects_non_strings_witness :
  validateField (lit "email") (Some (num 42))
  = Normal (Some (lit "Invalid email format")).
Proof.
  apply (@email_rejects_non_strings (num 42)); reflexivity.
Defined.

(** ** Required-field validation, further *)

Lemma validateLoop_frame (data data' : object) (fields : list jsstring) :
  (forall f, In f fields -> Get data f = Get data' f) ->
  forall errors,
    validateLoop data fields errors = validateLoop data' fields errors.
Proof.
  induction fields as [|field rest IH]; intros Hsame errors; [reflexivity|].
  cbn [validateLoop].
  rewrite <- (Hsame field (or_introl eq_refl)).
  assert (Hrest : forall f, In f rest -> Get data f = Get data' f)
    by (intros f Hf; apply Hsame; now right).
  destruct (negb (ToBoolean (Get data field)) || isBlankString (Get data field));
    [now apply IH|].
  destruct (validateField field (Get data field)) as [[reason|]|e];
    cbn [bind]; [|now apply IH|reflexivity].
  destruct (isEmpty reason); now apply IH.
Qed.

(** X4. Validation reads the required fields only: two submissions that
    agree on the values of the required fields get the same result,
    whatever their other fields hold, so that an optional field (the
    contact form's [phone], say) is never validated. *)
Theorem validation_reads_required_only (data data' : object)
    (fields : list jsstring) :
  (forall f, In f fields -> Get data f = Get data' f) ->
  validateRequiredFields data fields = validateRequiredFields data' fields.
Proof.
  intros Hsame. unfold validateRequiredFields.
  now apply validateLoop_frame.
Qed.

Lemma validation_reads_required_only_witness :
  validateRequiredFields data_contact_ok
    (map lit ["name"; "email"; "message"]%string)
  = validateRequiredFields data_contact_other
      (map lit ["name"; "email"; "message"]%string).
Proof.
  apply (@validation_reads_required_only data_contact_ok data_contact_other
           (map lit ["name"; "email"; "message"]%string)).
  intros f [<-|[<-|[<-|[]]]]; reflexivity.
Defined.

Lemma expectedErrors_length (data : object) (fields : list jsstring) :
  (List.length (expectedErrors data fields) <= List.length fields)%nat.
Proof.
  unfold expectedErrors. induction fields as [|field rest IH]; [apply le_n|].
  cbn [flat_map]. rewrite length_app.
  destruct (fieldError data field); simpl; lia.
Qed.

Lemma fieldError_kinds (data : object) (field m : jsstring) :
  fieldError data field = Some m ->
  m = missing_message field
  \/ m = lit "email: Invalid email format"
  \/ m = lit "phone: Invalid phone format".
Proof.
  unfold fieldError. destruct (missing (Get data field)).
  - intros [= <-]. now left.
  - destruct (validateField field (Get data field)) as [[reason|]|] eqn:Hv;
      try discriminate.
    destruct (isEmpty reason); [discriminate|]. intros [= <-].
    destruct (validateField_reason _ _ Hv) as [ [-> ->] | [-> ->] ]; tauto.
Qed.

(** X5. On a submission of scalars to a configured form validation
    returns at most one message per required field of the form, and
    every message is of one of three kinds: "Missing required field:
    <name>" for a required field, "email: Invalid email format", or
    "phone: Invalid phone format". *)
Theorem validation_messages hooks key config (data : object) :
  ownProperty (FORM_CONFIGS hooks) key = Some config ->
  RawSubmission data ->
  exists errors,
    validateRequiredFields data (requiredFields config) = Normal errors
    /\ (List.length errors <= List.length (requiredFields config))%nat
    /\ forall m, In m errors ->
         (exists field,
             In field (requiredFields config) /\ m = missing_message field)
         \/ m = lit "email: Invalid email format"
         \/ m = lit "phone: Invalid phone format".
Proof.
  intros _ Hraw. exists (expectedErrors data (requiredFields config)).
  split; [now apply validateRequiredFields_collects|].
  split; [apply expectedErrors_length|].
  intros m Hm. apply In_expectedErrors in Hm as (field & Hin & Hf).
  destruct (fieldError_kinds _ _ Hf) as [ -> | [ -> | -> ] ]; eauto.
Qed.

Lemma validation_messages_witness :
  exists errors,
    validateRequiredFields data_bad_quote
      (map lit ["name"; "email"; "service_type"; "budget"]%string)
    = Normal errors
    /\ (List.length errors <= 4)%nat
    /\ forall m, In m errors ->
         (exists field,
             In field (map lit ["name"; "email"; "service_type"; "budget"]%string)
             /\ m = missing_message field)
         \/ m = lit "email: Invalid email format"
         \/ m = lit "phone: Invalid phone format".
Proof.
  apply (@validation_messages shipped (lit "quote")
           {| requiredFields :=
                map lit ["name"; "email"; "service_type"; "budget"]%string;
              optionalFields :=
                map lit ["phone"; "company"; "details"; "timeline"]%string;
              onSuccess := Some (shipped (lit "quote")) |}
           data_bad_quote); reflexivity.
Defined.

Lemma expectedErrors_nil (data : object) (fields : list jsstring) :
  expectedErrors data fields = []
  <-> forall field, In field fields -> fieldError data field = None.
Proof.
  unfold expectedErrors. induction fields as [|field rest IH]; cbn [flat_map].
  - split; [intros _ f []|reflexivity].
  - split.
    + intros H. apply app_eq_nil in H as [Hf Hrest].
      intros f [<-|Hin]; [|now apply IH].
      now destruct (fieldError data field).
    + intros H. rewrite (H field (or_introl eq_refl)).
      apply IH. intros f Hf. apply H. now right.
Qed.

(** X6. On a submission of scalars to a configured form validation
    returns no error exactly when every required field of the form has a
    value that is not missing (truthy, and not a blank string) and that
    its validator, if it has one, accepts. *)
Theorem validation_passes_iff hooks key config (data : object) :
  ownProperty (FORM_CONFIGS hooks) key = Some config ->
  RawSubmission data ->
  (validateRequiredFields data (requiredFields config) = Normal []
   <-> forall field, In field (requiredFields config) ->
         missing (Get data field) = false
         /\ validateField field (Get data field) = Normal None).
Proof.
  intros _ Hraw. generalize (requiredFields config). intros fields.
  rewrite (validateRequiredFields_collects fields Hraw).
  split.
  - intros [= H] field Hin.
    pose proof (proj1 (expectedErrors_nil data fields) H field Hin) as Hf.
    unfold fieldError in Hf.
    destruct (missing (Get data field)); [discriminate|]. split; [reflexivity|].
    destruct (validateField_scalar field Hraw) as [[reason|] Hv];
      [|exact Hv].
    rewrite Hv in Hf.
    destruct (validateField_reason _ _ Hv) as [[_ ->]|[_ ->]]; discriminate Hf.
  - intros H. f_equal. apply expectedErrors_nil. intros field Hin.
    destruct (H field Hin) as [Hm Hv]. unfold fieldError. now rewrite Hm, Hv.
Qed.

Lemma validation_passes_iff_witness :
  validateRequiredFields data_contact_ok
    (map lit ["name"; "email"; "message"]%string) = Normal []
  <-> forall field,
        In field (map lit ["name"; "email"; "message"]%string) ->
        missing (Get data_contact_ok field) = false
        /\ validateField field (Get data_contact_ok field) = Normal None.
Proof.
  apply (@validation_passes_iff shipped (lit "contact")
           {| requiredFields := map lit ["name"; "email"; "message"]%string;
              optionalFields := map lit ["phone"; "company"]%string;
              onSuccess := Some (shipped (lit "contact")) |}
           data_contact_ok); reflexivity.
Defined.

(** ** The timestamp check, further *)

(** X7. For a truthy [_timestamp] from which [parseInt] reads an instant,
    the check passes exactly when the clock of the server is at least
    2000 ms past that instant: a submission at exactly 2000 ms passes,
    and a timestamp in the future of the server is rejected like one
    that is too recent. *)
Theorem timestamp_threshold rt data timestamp text instant :
  Get data (lit "_timestamp") = Some timestamp ->
  ToBoolean (Some timestamp) = true ->
  ToString timestamp = Normal text ->
  parseInt10 text = Some instant ->
  (checkTimestamp rt data = Normal true <-> instant + 2000 <= Date_now rt)
  /\ (checkTimestamp rt data = Normal false <-> Date_now rt < instant + 2000).
Proof.
  intros Hg Hb Hs Hp. unfold checkTimestamp.
  rewrite Hg, Hb. cbn [ToStringU]. rewrite Hs. cbn [bind]. rewrite Hp.
  destruct (Z.ltb_spec (Date_now rt - instant) 2000); split; split;
    intros H'; try discriminate; try reflexivity; lia.
Qed.

Lemma timestamp_threshold_witness :
  (checkTimestamp (engine []) data_fresh_timestamp = Normal true
   <-> 1704067209000 + 2000 <= Date_now (engine []))
  /\ (checkTimestamp (engine []) data_fresh_timestamp = Normal false
      <-> Date_now (engine []) < 1704067209000 + 2000).
Proof.
  apply (@timestamp_threshold (engine []) data_fresh_timestamp
           (str "1704067209000") (lit "1704067209000") 1704067209000);
    reflexivity.
Defined.

(** X8. Waiting never hurts: a submission that passes the timestamp check
    at some reading of the clock passes it at every later reading,
    whatever its [_timestamp] holds. *)
Theorem timestamp_later_passes rt rt' data :
  Date_now rt <= Date_now rt' ->
  checkTimestamp rt data = Normal true ->
  checkTimestamp rt' data = Normal true.
Proof.
  intros Hle. unfold checkTimestamp.
  destruct (ToBoolean (Get data (lit "_timestamp"))); [|reflexivity].
  destruct (ToStringU (Get data (lit "_timestamp"))) as [text|e];
    cbn [bind]; [|discriminate].
  destruct (parseInt10 text) as [instant|]; [|reflexivity].
  destruct (Z.ltb_spec (Date_now rt - instant) 2000); [discriminate|].
  intros _. destruct (Z.ltb_spec (Date_now rt' - instant) 2000);
    [lia|reflexivity].
Qed.

Lemma timestamp_later_passes_witness :
  checkTimestamp (engine_later []) data_contact_ok = Normal true.
Proof.
  apply (@timestamp_later_passes (engine []) (engine_later [])
           data_contact_ok); [vm_compute; discriminate|reflexivity].
Defined.

(** ** Numeric timestamps *)

Lemma digits_value_acc (u : Decimal.uint) (acc : positive) :
  digits_value (Zpos acc) (uint_units u) = Zpos (Pos.of_uint_acc u acc).
Proof.
  revert acc. induction u; intros acc; cbn [uint_units digits_value Pos.of_uint_acc];
    [reflexivity|..];
    rewrite <- IHu; f_equal; cbn [Z.of_N]; lia.
Qed.

Lemma digits_value_uint (u : Decimal.uint) :
  digits_value 0 (uint_units u) = Z.of_N (Pos.of_uint u).
Proof.
  induction u; cbn [uint_units digits_value Pos.of_uint]; [reflexivity|..];
    try (exact IHu);
    cbn [Z.of_N]; rewrite <- digits_value_acc; f_equal.
Qed.

Lemma digits_value_digits (p : positive) : digits_value 0 (digits p) = Zpos p.
Proof.
  unfold digits. now rewrite digits_value_uint, DecimalPos.Unsigned.of_to.
Qed.

Lemma uint_units_digits (u : Decimal.uint) :
  forallb isDigit (uint_units u) = true.
Proof. induction u; cbn [uint_units forallb]; auto. Qed.

Lemma takeWhile_all (p : N -> bool) (s : jsstring) :
  forallb p s = true -> takeWhile p s = s.
Proof.
  induction s as [|c s IH]; cbn [forallb takeWhile]; [reflexivity|].
  intros H. apply andb_prop in H as [-> H]. now rewrite IH.
Qed.

Lemma dropWhile_length (p : N -> bool) (m : jsstring) :
  (List.length (dropWhile p m) <= List.length m)%nat.
Proof.
  induction m as [|d m IH]; simpl; [lia|]. destruct (p d); simpl; lia.
Qed.

Lemma leading_zeros_restored (m : jsstring) :
  rev (dropWhile (N.eqb 48) m)
  ++ repeat 48%N (List.length m - List.length (dropWhile (N.eqb 48) m))
  = rev m.
Proof.
  induction m as [|c m IH]; [reflexivity|].
  cbn [dropWhile]. destruct (N.eqb_spec 48 c) as [<-|Hc].
  - cbn [rev List.length]. rewrite <- IH.
    rewrite <- app_assoc. f_equal.
    pose proof (dropWhile_length (N.eqb 48) m) as Hlen.
    replace (S (List.length m) - List.length (dropWhile (N.eqb 48) m))%nat
      with (List.length m - List.length (dropWhile (N.eqb 48) m) + 1)%nat by lia.
    now rewrite repeat_app.
  - rewrite Nat.sub_diag. cbn [repeat]. now rewrite app_nil_r.
Qed.

(** Trailing zeros taken off and put back. *)
Lemma trailing_zeros_restored (s : jsstring) :
  rev (dropWhile (N.eqb 48) (rev s))
  ++ repeat 48%N
       (List.length s - List.length (rev (dropWhile (N.eqb 48) (rev s))))
  = s.
Proof.
  pose proof (leading_zeros_restored (rev s)) as H.
  rewrite rev_involutive, length_rev in H. now rewrite length_rev.
Qed.

(** A positive integer of at most 21 digits prints as its digits. *)
Lemma Number_toString_integer (p : positive) :
  (List.length (digits p) <= 21)%nat ->
  Number_toString (Dec (Zpos p) 0) = digits p.
Proof.
  intros Hlen. cbn [Number_toString]. unfold format_positive.
  set (all := digits p) in *.
  set (ds := rev (dropWhile (N.eqb 48) (rev all))).
  pose proof (trailing_zeros_restored all) as Hrestore.
  fold ds in Hrestore.
  assert (Hshort : (List.length ds <= List.length all)%nat).
  { unfold ds. rewrite length_rev.
    pose proof (dropWhile_length (N.eqb 48) (rev all)) as H.
    now rewrite length_rev in H. }
  destruct (Z.leb_spec (Z.of_nat (List.length ds)) (Z.of_nat (List.length all) + 0));
    [|lia].
  destruct (Z.leb_spec (Z.of_nat (List.length all) + 0) 21); [|lia].
  cbn [andb]. unfold zeros.
  replace (Z.to_nat (Z.of_nat (List.length all) + 0 - Z.of_nat (List.length ds)))
    with (List.length all - List.length ds)%nat by lia.
  exact Hrestore.
Qed.

Lemma parseInt10_digits (p : positive) : parseInt10 (digits p) = Some (Zpos p).
Proof.
  pose proof (digits_value_digits p) as Hv.
  pose proof (uint_units_digits (Pos.to_uint p)) as Hd. fold (digits p) in Hd.
  unfold parseInt10, trimStart.
  destruct (digits p) as [|c s] eqn:E; [discriminate Hv|].
  cbn [forallb] in Hd. apply andb_prop in Hd as [Hc Hs].
  assert (Hws : isWhiteSpace c = false).
  { unfold isDigit in Hc. apply andb_prop in Hc as [H1 H2].
    apply N.leb_le in H1, H2. unfold isWhiteSpace.
    repeat match goal with
           | |- context [N.eqb c ?k] =>
               destruct (N.eqb_spec c k); [lia|]
           | |- context [N.leb ?a ?b] =>
               destruct (N.leb_spec a b); try lia
           end; reflexivity. }
  cbn [dropWhile]. rewrite Hws.
  assert (Hsign : c <> 45%N /\ c <> 43%N).
  { unfold isDigit in Hc. apply andb_prop in Hc as [H1 H2].
    apply N.leb_le in H1, H2. lia. }
  assert (Hrest : (let '(negative, r) :=
                     match c :: s with
                     | 45%N :: r => (true, r)
                     | 43%N :: r => (false, r)
                     | _ => (false, c :: s)
                     end in
                   match takeWhile isDigit r with
                   | [] => None
                   | ds => Some (if negative : bool
                                 then - digits_value 0 ds
                                 else digits_value 0 ds)
                   end) = Some (Zpos p)).
  { destruct Hsign as [H45 H43].
    assert (Hm : match c :: s with
                 | 45%N :: r => (true, r)
                 | 43%N :: r => (false, r)
                 | _ => (false, c :: s)
                 end = (false, c :: s)).
    { destruct c as [|q]; [reflexivity|].
      do 6 (destruct q as [q|q|]; try reflexivity); congruence. }
    rewrite Hm. rewrite takeWhile_all by (cbn [forallb]; now rewrite Hc, Hs).
    cbv beta iota zeta. now rewrite Hv. }
  exact Hrest.
Qed.

(** X9. A numeric [_timestamp] that is a positive integer of at most 15
    digits (every millisecond timestamp is one; such an integer is below
    2^53, so the double the engine holds is the integer itself) is read
    back exactly: converting it to a string and parsing it with
    [parseInt] gives the integer, so the check treats the number as it
    treats the string of its digits and passes exactly from 2000 ms after
    it. *)
Theorem numeric_timestamp_read_back rt data (p : positive) :
  (List.length (digits p) <= 15)%nat ->
  Get data (lit "_timestamp") = Some (VNum (Dec (Zpos p) 0)) ->
  parseInt10 (Number_toString (Dec (Zpos p) 0)) = Some (Zpos p)
  /\ checkTimestamp rt data
     = Normal (if Date_now rt - Zpos p <? 2000 then false else true).
Proof.
  intros Hlen Hg.
  assert (Hp : parseInt10 (Number_toString (Dec (Zpos p) 0)) = Some (Zpos p))
    by (rewrite Number_toString_integer by lia; apply parseInt10_digits).
  split; [exact Hp|].
  unfold checkTimestamp. rewrite Hg. cbn [ToBoolean isZero negb ToStringU ToString bind].
  now rewrite Hp.
Qed.

Lemma numeric_timestamp_read_back_witness :
  parseInt10 (Number_toString (Dec 1704067209500 0)) = Some 1704067209500
  /\ checkTimestamp (engine []) data_numeric_timestamp = Normal false.
Proof.
  apply (@numeric_timestamp_read_back (engine []) data_numeric_timestamp
           1704067209500%positive); [vm_compute; lia|reflexivity].
Defined.

(** ** Sanitizing, further *)

Lemma markupFree_inert (s : jsstring) :
  markupFree s = true <-> Forall inert s.
Proof.
  unfold markupFree. rewrite forallb_forall, Forall_forall.
  split; intros H u Hu; specialize (H u Hu).
  - apply negb_true_iff in H.
    repeat (apply orb_false_elim in H as [H ?]).
    unfold inert. repeat split; intros ->; discriminate.
  - destruct H as (H1 & H2 & H3 & H4). apply negb_true_iff.
    destruct (N.eqb_spec u 60); [contradiction|].
    destruct (N.eqb_spec u 62); [contradiction|].
    destruct (N.eqb_spec u 34); [contradiction|].
    destruct (N.eqb_spec u 39); [contradiction|reflexivity].
Qed.

Lemma sanitizeInput_string (s : jsstring) :
  exists t, sanitizeInput (VStr s) = VStr t /\ markupFree t = true.
Proof.
  eexists. split; [reflexivity|]. apply markupFree_inert, sanitized_inert.
Qed.

Lemma sanitizeInput_again (v : value) :
  sanitizeInput (sanitizeInput v) = sanitizeInput v.
Proof.
  destruct v as [| b | x | s | items | props]; try reflexivity.
  destruct (sanitizeInput_string s) as (t & -> & Ht).
  now apply sanitizeInput_inert, markupFree_inert.
Qed.


Lemma sanitizeData_fold (data : object) :
  sanitizeData data = fold_left sanitizeEntry data [].
Proof. reflexivity. Qed.

Lemma control_key_neq (k k' : jsstring) :
  control_key k = true -> control_key k' = false -> streq k' k = false.
Proof.
  intros Hk Hk'. destruct (streq k' k) eqn:E; [|reflexivity].
  apply streq_eq in E as ->. congruence.
Qed.

Lemma Get_cons (o : object) (k0 k : jsstring) (v0 : value) :
  Get ((k0, v0) :: o) k = if streq k0 k then Some v0 else Get o k.
Proof. reflexivity. Qed.

Lemma sanitize_fold_Get (data : object) :
  distinctKeys data = true ->
  forall acc k,
    Get (fold_left sanitizeEntry data acc) k
    = if control_key k then Get acc k
      else match Get data k with
           | Some v => Some (sanitizeInput v)
           | None => Get acc k
           end.
Proof.
  induction data as [|[k0 v0] data IH]; intros Hd acc k.
  - cbn [fold_left]. destruct (control_key k); reflexivity.
  - cbn [distinctKeys] in Hd. apply andb_prop in Hd as [Hfresh Hd].
    apply negb_true_iff in Hfresh. unfold hasOwn in Hfresh.
    cbn [fold_left sanitizeEntry]. rewrite (IH Hd), Get_cons.
    fold (control_key k0).
    destruct (control_key k) eqn:Hk; destruct (control_key k0) eqn:Hk0;
      try reflexivity.
    + rewrite Get_Set_. now rewrite (control_key_neq _ _ Hk Hk0).
    + destruct (streq k0 k) eqn:E; [|reflexivity].
      apply streq_eq in E as ->. congruence.
    + rewrite Get_Set_. destruct (streq k0 k) eqn:E; [|reflexivity].
      apply streq_eq in E as ->.
      now destruct (Get data k).
Qed.

(** X11. Reading a sanitized submission: on an object with distinct keys,
    a control key (one that starts with [_]) is absent from the result of
    [sanitizeData], and any other key holds the sanitized value of what it
    held, or is absent as it was; no field is dropped for not being
    declared by the form, and none is added. *)
Theorem sanitizeData_lookup (data : object) (k : jsstring) :
  distinctKeys data = true ->
  Get (sanitizeData data) k
  = if control_key k then None else option_map sanitizeInput (Get data k).
Proof.
  intros Hd. rewrite sanitizeData_fold, (sanitize_fold_Get _ Hd).
  destruct (control_key k); [reflexivity|]. now destruct (Get data k).
Qed.

Lemma sanitizeData_lookup_witness :
  Get (sanitizeData data_contact_ok) (lit "message")
  = (if control_key (lit "message") then None
     else option_map sanitizeInput (Get data_contact_ok (lit "message"))).
Proof.
  apply (@sanitizeData_lookup data_contact_ok (lit "message")). reflexivity.
Defined.

Lemma In_Set_value (o : object) (k k' : jsstring) (v v' : value) :
  In (k', v') (Set_ o k v) -> (k' = k /\ v' = v) \/ In (k', v') o.
Proof.
  induction o as [|[k0 v0] o IH]; cbn [Set_ In].
  - intros [[= -> ->]|[]]. now left.
  - destruct (streq k0 k) eqn:E0; cbn [In].
    + apply streq_eq in E0 as ->. intros [[= -> ->]|H]; [now left|].
      right. now right.
    + intros [H|H]; [right; now left|].
      destruct (IH H) as [?|?]; [now left|right; now right].
Qed.

Lemma Set_fresh (o : object) (k : jsstring) (v : value) :
  Get o k = None -> Set_ o k v = o ++ [(k, v)].
Proof.
  unfold Get. induction o as [|[k0 v0] o IH]; cbn [Set_ ownProperty app];
    [reflexivity|].
  destruct (streq k0 k); [discriminate|]. intros H. now rewrite IH.
Qed.

Lemma Get_app (o o' : object) (k : jsstring) :
  Get (o ++ o') k = match Get o k with Some v => Some v | None => Get o' k end.
Proof.
  unfold Get. induction o as [|[k0 v0] o IH]; cbn [app ownProperty];
    [reflexivity|].
  now destruct (streq k0 k).
Qed.

Lemma distinctKeys_Set_ (o : object) (k : jsstring) (v : value) :
  distinctKeys o = true -> distinctKeys (Set_ o k v) = true.
Proof.
  induction o as [|[k0 v0] o IH]; cbn [Set_ distinctKeys]; [reflexivity|].
  intros H. apply andb_prop in H as [Hfresh Hd].
  destruct (streq k0 k) eqn:E; cbn [distinctKeys].
  - now rewrite Hfresh, Hd.
  - rewrite (IH Hd), andb_true_r. unfold hasOwn in *. rewrite Get_Set_.
    destruct (streq k k0) eqn:E'; [|exact Hfresh].
    apply streq_eq in E' as ->. now rewrite streq_refl in E.
Qed.

Lemma sanitize_fold_invariant (data : object) :
  forall acc, sanitized_object acc ->
              sanitized_object (fold_left sanitizeEntry data acc).
Proof.
  induction data as [|[k0 v0] data IH]; intros acc Hacc; [exact Hacc|].
  cbn [fold_left sanitizeEntry]. apply IH.
  destruct (startsWith (lit "_") k0) eqn:Hc; [exact Hacc|].
  destruct Hacc as [Hd Hall]. split; [now apply distinctKeys_Set_|].
  intros k v Hin. destruct (In_Set_value _ _ _ _ _ Hin) as [[-> ->]|H].
  - split; [exact Hc|apply sanitizeInput_again].
  - now apply Hall.
Qed.

Lemma sanitizeData_sanitized (data : object) :
  sanitized_object (sanitizeData data).
Proof.
  rewrite sanitizeData_fold. apply sanitize_fold_invariant.
  split; [reflexivity|]. intros k v [].
Qed.

Lemma In_Get (o : object) (k : jsstring) (v : value) :
  In (k, v) o -> Get o k <> None.
Proof.
  unfold Get. induction o as [|[k0 v0] o IH]; cbn [In ownProperty]; [intros []|].
  intros [[= -> ->]|H]; [now rewrite streq_refl|].
  destruct (streq k0 k); [discriminate|now apply IH].
Qed.

(** The loop rebuilds an object that is already sanitized. *)
Lemma sanitize_fold_rebuilds (l : object) :
  forall acc,
    sanitized_object l ->
    (forall k v, In (k, v) l -> Get acc k = None) ->
    fold_left sanitizeEntry l acc = acc ++ l.
Proof.
  induction l as [|[k0 v0] l IH]; intros acc [Hd Hall] Hfresh.
  - now rewrite app_nil_r.
  - cbn [fold_left sanitizeEntry].
    destruct (Hall k0 v0 (or_introl eq_refl)) as [Hc Hv].
    fold (control_key k0). rewrite Hc, Hv.
    rewrite (@Set_fresh acc k0 v0 (Hfresh k0 v0 (or_introl eq_refl))).
    cbn [distinctKeys] in Hd. apply andb_prop in Hd as [Hk0 Hd].
    apply negb_true_iff in Hk0. unfold hasOwn in Hk0.
    rewrite IH.
    + now rewrite <- app_assoc.
    + split; [exact Hd|]. intros k v Hin. apply Hall. now right.
    + intros k v Hin. rewrite Get_app, (Hfresh k v (or_intror Hin)).
      unfold Get. cbn [ownProperty].
      destruct (streq k0 k) eqn:E; [|reflexivity].
      apply streq_eq in E as ->. exfalso.
      apply (In_Get _ _ _ Hin).
      destruct (Get l k); [discriminate Hk0|reflexivity].
Qed.

(** X12. Sanitizing a whole submission is idempotent: [sanitizeData]
    applied to its own result returns it unchanged, with the same keys in
    the same order. *)
Theorem sanitizeData_idempotent (data : object) :
  sanitizeData (sanitizeData data) = sanitizeData data.
Proof.
  rewrite (sanitizeData_fold (sanitizeData data)).
  rewrite sanitize_fold_rebuilds; [reflexivity|apply sanitizeData_sanitized|].
  reflexivity.
Qed.

(** ** The success action, further *)

Lemma config_key_markupFree hooks key config :
  ownProperty (FORM_CONFIGS hooks) key = Some config ->
  markupFree key = true.
Proof.
  unfold FORM_CONFIGS. cbn [ownProperty].
  repeat match goal with
         | |- context [streq ?a key] =>
             let E := fresh "E" in
             destruct (streq a key) eqn:E;
             [apply streq_eq in E as <-; reflexivity|]
         end.
  discriminate.
Qed.

(** X13. No top-level string a hook receives contains [<], [>], a double
    quote or an apostrophe, provided the text of the server's timestamp
    has none: the submitted strings arrive escaped, [form_id] is a
    configured identifier, and [submitted_at] is the timestamp.  (Strings
    nested in arrays or objects are passed on as submitted.) *)
Theorem hook_strings_markupFree hooks rt event key d k s :
  In (Invoked key d) (fst (handler hooks rt event)) ->
  markupFree (Date_toISOString rt) = true ->
  In (k, VStr s) d ->
  markupFree s = true.
Proof.
  intros Hin Hiso Hk.
  destruct (handler_invoked _ _ _ _ _ Hin)
    as (data & form_id & config & Hp & _ & -> & _).
  destruct (In_Set_value _ _ _ _ _ Hk) as [[_ [= ->]]|Hk1]; [exact Hiso|].
  destruct (In_Set_value _ _ _ _ _ Hk1) as [[_ <-]|Hk2].
  - pose proof (posted_key Hp) as Hkey. cbn in Hkey. injection Hkey as ->.
    exact (config_key_markupFree _ _ (posted_config Hp)).
  - destruct (sanitizeData_sanitized data) as [_ Hall].
    destruct (Hall _ _ Hk2) as [_ Hfixed].
    destruct (sanitizeInput_string s) as (t & Ht & Hfree).
    rewrite Hfixed in Ht. now injection Ht as <-.
Qed.

Lemma hook_strings_markupFree_witness :
  markupFree (lit "Ada &lt;ada&gt;") = true.
Proof.
  apply (@hook_strings_markupFree shipped
           (engine [(text body_contact_ok, VObj data_contact_ok)])
           (POST body_contact_ok) (lit "contact") sanitized_contact_ok
           (lit "name") (lit "Ada &lt;ada&gt;"));
    [vm_compute; left; reflexivity | reflexivity | vm_compute; tauto].
Defined.

(** X14. A submission to a configured form that passes the honeypot
    check, the timestamp check and the validation reaches the form's hook
    exactly once, with the sanitized fields, the submitted [form_id] and
    the server's [submitted_at]; the handler answers "<form> form
    submitted successfully" if the hook resolves and the generic 500 if
    it fails, and calls nothing else. *)
Theorem valid_submission_dispatched hooks rt event data form_id key config :
  posted hooks rt event data form_id key config ->
  checkHoneypot data = Normal true ->
  checkTimestamp rt data = Normal true ->
  validateRequiredFields data (requiredFields config) = Normal [] ->
  let d := Set_ (Set_ (sanitizeData data) (lit "form_id") form_id)
             (lit "submitted_at") (VStr (Date_toISOString rt)) in
  handler hooks rt event
  = match hooks key d with
    | Resolves =>
        ([Invoked key d],
         Normal (successResponse
                   (Some (key ++ lit " form submitted successfully"))))
    | Fails cause =>
        ([Invoked key d; ConsoleError key cause],
         Normal (errorResponse
                   (lit "Submission processing failed. Please try again.")
                   (Some 500)))
    end.
Proof.
  intros Hp Hh Ht Hv d.
  rewrite (handler_posted Hp). unfold handler_checks. rewrite Hh, Ht.
  unfold handler_fields. rewrite Hv. unfold handler_action.
  rewrite (config_hook _ _ (posted_config Hp)). fold d.
  now destruct (hooks key d).
Qed.

Lemma valid_submission_dispatched_witness :
  handler shipped (engine [(text body_contact_ok, VObj data_contact_ok)])
    (POST body_contact_ok)
  = ([Invoked (lit "contact") sanitized_contact_ok],
     Normal (successResponse (Some (lit "contact form submitted successfully")))).
Proof.
  apply (@valid_submission_dispatched shipped
           (engine [(text body_contact_ok, VObj data_contact_ok)])
           (POST body_contact_ok) data_contact_ok (str "contact")
           (lit "contact")
           {| requiredFields := map lit ["name"; "email"; "message"]%string;
              optionalFields := map lit ["phone"; "company"]%string;
              onSuccess := Some (shipped (lit "contact")) |});
    [constructor; reflexivity | reflexivity | reflexivity | reflexivity].
Defined.

(** X15. A hook is called only for a submission to a configured form
    that passed all three gates: whenever the handler has called the hook
    of a form, the request was a POST whose body parsed to an object
    naming that form, the honeypot check and the timestamp check returned
    true, validation returned no error, and the hook received the
    sanitized copy of that object. *)
Theorem invocation_requires_checks hooks rt event key d :
  In (Invoked key d) (fst (handler hooks rt event)) ->
  exists data form_id config,
    posted hooks rt event data form_id key config
    /\ checkHoneypot data = Normal true
    /\ checkTimestamp rt data = Normal true
    /\ validateRequiredFields data (requiredFields config) = Normal []
    /\ d = Set_ (Set_ (sanitizeData data) (lit "form_id") form_id)
             (lit "submitted_at") (VStr (Date_toISOString rt)).
Proof.
  intros Hin.
  destruct (handler_invoked _ _ _ _ _ Hin)
    as (data & form_id & config & Hp & Hv & Hd & _).
  exists data, form_id, config.
  rewrite (handler_posted Hp) in Hin. unfold handler_checks in Hin.
  destruct (checkHoneypot data) as [[|]|]; try (destruct Hin; fail).
  destruct (checkTimestamp rt data) as [[|]|]; try (destruct Hin; fail).
  split; [exact Hp|]. split; [reflexivity|]. split; [reflexivity|].
  split; [exact Hv|exact Hd].
Qed.

Lemma invocation_requires_checks_witness :
  exists data form_id config,
    posted shipped (engine [(text body_contact_ok, VObj data_contact_ok)])
      (POST body_contact_ok) data form_id (lit "contact") config
    /\ checkHoneypot data = Normal true
    /\ checkTimestamp (engine [(text body_contact_ok, VObj data_contact_ok)])
         data = Normal true
    /\ validateRequiredFields data (requiredFields config) = Normal []
    /\ sanitized_contact_ok
       = Set_ (Set_ (sanitizeData data) (lit "form_id") form_id)
           (lit "submitted_at")
           (VStr (Date_toISOString
                    (engine [(text body_contact_ok, VObj data_contact_ok)]))).
Proof.
  apply (@invocation_requires_checks shipped
           (engine [(text body_contact_ok, VObj data_contact_ok)])
           (POST body_contact_ok) (lit "contact") sanitized_contact_ok).
  vm_compute. left. reflexivity.
Defined.

(** ** Every path of the handler *)

(** Case analysis along the branches of [handler]. *)
Ltac handler_paths :=
  unfold handler, handler_form, handler_fields, handler_action, Member;
  repeat (cbn [properties negb Get ownProperty];
          match goal with
          | |- context [match (match ?x with _ => _ end) with _ => _ end] =>
              destruct x eqn:?
          | |- context [match ?x with _ => _ end] => destruct x eqn:?
          end);
  cbn [properties negb Get ownProperty fst snd].

Ltac hook_of_config :=
  match goal with
  | Hc : ownProperty (FORM_CONFIGS ?hooks) ?key = Some ?config,
    Ho : onSuccess ?config = Some ?hook |- _ =>
      rewrite (config_hook _ _ Hc) in Ho; injection Ho as <-
  end.

(** X16. One invocation calls at most one hook, and what it did fixes the
    kind of answer: without a hook call the handler throws or answers
    200, 400 or 405; after a hook that resolved it answers "<form> form
    submitted successfully"; after a hook that failed it logs the cause
    and answers the generic 500, which it never does otherwise. *)
Theorem effects_and_response hooks rt event :
  (fst (handler hooks rt event) = []
   /\ ((exists e, snd (handler hooks rt event) = Throw e)
       \/ exists response,
            snd (handler hooks rt event) = Normal response
            /\ In (statusCode response) [200; 400; 405]))
  \/ (exists key d,
         hooks key d = Resolves
         /\ handler hooks rt event
            = ([Invoked key d],
               Normal (successResponse
                         (Some (key ++ lit " form submitted successfully")))))
  \/ (exists key d cause,
         hooks key d = Fails cause
         /\ handler hooks rt event
            = ([Invoked key d; ConsoleError key cause],
               Normal (errorResponse
                         (lit "Submission processing failed. Please try again.")
                         (Some 500)))).
Proof.
  handler_paths;
    try (left; split; [reflexivity|];
         first [left; eexists; reflexivity
               |right; eexists; split; [reflexivity|simpl; tauto]]);
    hook_of_config.
  - right. left. do 2 eexists. split; [eassumption|reflexivity].
  - right. right. do 3 eexists. split; [eassumption|reflexivity].
Qed.

Ltac status_of H :=
  apply (f_equal (fun c => match c with
                           | Normal r => statusCode r
                           | Throw _ => 0
                           end)) in H;
  cbv [statusCode errorResponse successResponse jsonResponse] in H.

(** X17. Every response the handler returns carries the fixed CORS
    headers and is of one of three kinds: the empty object with status
    200, for an OPTIONS request; a success envelope [success: true] with
    a message and status 200; or an error envelope [success: false] with
    an error text and status 400, 405 or 500.  The status is 405 exactly
    when the method is neither OPTIONS nor POST, compared as written. *)
Theorem response_envelope hooks rt event response :
  snd (handler hooks rt event) = Normal response ->
  headers response = fixed_headers
  /\ ((streq (Event.httpMethod event) (lit "OPTIONS") = true
       /\ response = jsonResponse 200 (VObj []))
      \/ (exists message, response = successResponse (Some message))
      \/ (exists message code,
             response = errorResponse message (Some code)
             /\ In code [400; 405; 500]))
  /\ (statusCode response = 405
      <-> streq (Event.httpMethod event) (lit "OPTIONS") = false
          /\ streq (Event.httpMethod event) (lit "POST") = false).
Proof.
  handler_paths; intros [= <-];
    (split; [reflexivity|]);
    repeat match goal with
           | H : negb _ = true |- _ => apply (proj1 (negb_true_iff _)) in H
           | H : negb _ = false |- _ => apply (proj1 (negb_false_iff _)) in H
           end;
    (split;
     [first [left; split; reflexivity
            |right; left; eexists; reflexivity
            |right; right; do 2 eexists; split; [reflexivity|simpl; tauto]]
     |split;
      [intros H;
       cbv [statusCode errorResponse successResponse jsonResponse] in H;
       first [discriminate H | split; [reflexivity|assumption]]
      |intros [H1 H2]; first [reflexivity | discriminate H1 | congruence]]]).
Qed.

Lemma response_envelope_witness :
  headers (errorResponse (lit "Method not allowed. Use POST.") (Some 405))
  = fixed_headers
  /\ ((streq (lit "post") (lit "OPTIONS") = true
       /\ errorResponse (lit "Method not allowed. Use POST.") (Some 405)
          = jsonResponse 200 (VObj []))
      \/ (exists message,
             errorResponse (lit "Method not allowed. Use POST.") (Some 405)
             = successResponse (Some message))
      \/ (exists message code,
             errorResponse (lit "Method not allowed. Use POST.") (Some 405)
             = errorResponse message (Some code)
             /\ In code [400; 405; 500]))
  /\ (statusCode (errorResponse (lit "Method not allowed. Use POST.") (Some 405))
      = 405
      <-> streq (lit "post") (lit "OPTIONS") = false
          /\ streq (lit "post") (lit "POST") = false).
Proof.
  apply (@response_envelope shipped (engine [])
           {| Event.httpMethod := lit "post"; Event.body := text "{}" |}
           (errorResponse (lit "Method not allowed. Use POST.") (Some 405))).
  reflexivity.
Defined.

Lemma config_key_message hooks key config :
  ownProperty (FORM_CONFIGS hooks) key = Some config ->
  successResponse (Some (key ++ lit " form submitted successfully"))
  <> successResponse None.
Proof.
  unfold FORM_CONFIGS. cbn [ownProperty].
  repeat match goal with
         | |- context [streq ?a key] =>
             let E := fresh "E" in
             destruct (streq a key) eqn:E;
             [apply streq_eq in E as <-; intros _ H;
              apply (f_equal body) in H; vm_compute in H; discriminate H|]
         end.
  discriminate.
Qed.

(** X18. The default-message success is the mark of the honeypot: the
    handler returns the 200 response "Form submitted successfully" only
    when [checkHoneypot] has returned false on the submitted object, and
    then without calling a hook.  A dispatched submission is answered
    with a message that names its form, so the silent success can be
    told from a genuine one. *)
Theorem default_success_means_honeypot hooks rt event :
  snd (handler hooks rt event) = Normal (successResponse None) ->
  fst (handler hooks rt event) = []
  /\ exists data,
       JSON_parse rt (Event.body event) = Some (VObj data)
       /\ checkHoneypot data = Normal false.
Proof.
  handler_paths; cbn [snd fst]; intros H;
    try discriminate H;
    try (split; [reflexivity|]; eexists;
         split; [first [eassumption | reflexivity]|assumption]);
    try (exfalso; status_of H; discriminate H);
    try (exfalso; injection H as H; apply (f_equal body) in H;
         vm_compute in H; discriminate H);
    exfalso;
    match goal with
    | Hc : ownProperty (FORM_CONFIGS _) _ = Some _ |- _ =>
        apply (@config_key_message _ _ _ Hc); congruence
    end.
Qed.

Lemma default_success_means_honeypot_witness :
  fst (handler shipped
         (engine [(text body_filled_honey, VObj data_filled_honey)])
         (POST body_filled_honey)) = []
  /\ exists data,
       JSON_parse (engine [(text body_filled_honey, VObj data_filled_honey)])
         (Event.body (POST body_filled_honey)) = Some (VObj data)
       /\ checkHoneypot data = Normal false.
Proof.
  apply (@default_success_means_honeypot shipped
           (engine [(text body_filled_honey, VObj data_filled_honey)])
           (POST body_filled_honey)).
  reflexivity.
Defined.

(** ** When the handler answers *)

Lemma checkHoneypot_returns (data : object) :
  honeyIsText data = true -> exists b, checkHoneypot data = Normal b.
Proof.
  unfold honeyIsText, checkHoneypot.
  destruct (Get data (lit "_honey")) as [[| b | x | s | items | props]|];
    cbn [ToBoolean call_trim bind negb]; intros H.
  - eexists; reflexivity.
  - destruct b; [discriminate H | eexists; reflexivity].
  - destruct (isZero x); [eexists; reflexivity | discriminate H].
  - destruct (negb (isEmpty s)); eexists; reflexivity.
  - discriminate H.
  - discriminate H.
  - eexists; reflexivity.
Qed.

Lemma checkTimestamp_returns (rt : Runtime) (data : object) :
  RawSubmission data -> exists b, checkTimestamp rt data = Normal b.
Proof.
  intros Hraw. unfold checkTimestamp.
  destruct (ToBoolean (Get data (lit "_timestamp"))); [|eauto].
  destruct (ToStringU_scalar (lit "_timestamp") Hraw) as [s ->]. cbn [bind].
  destruct (parseInt10 s); eauto.
Qed.

(** X19. The handler answers, and throws nothing, whenever what
    [JSON.parse] made of the body is within the contract: the parse
    failed, or gave a value that is not [null] and, if an object, holds
    only strings, numbers, booleans and [null], with a [_honey] that is
    absent, falsy or a string and a [form_id] that does not convert to
    the name of a member of [Object.prototype]. *)
Theorem handler_answers hooks rt event :
  withinContract (JSON_parse rt (Event.body event)) = true ->
  exists effects response,
    handler hooks rt event = (effects, Normal response).
Proof.
  intros H. unfold handler.
  destruct (streq (Event.httpMethod event) (lit "OPTIONS")); [eauto|].
  destruct (negb (streq (Event.httpMethod event) (lit "POST"))); [eauto|].
  destruct (JSON_parse rt (Event.body event)) as [parsed|]; [|eauto].
  destruct parsed as [| b | x | s | items | data];
    try discriminate H; try (do 2 eexists; reflexivity).
  cbn [withinContract] in H.
  apply andb_prop in H as [H Hinherited]. apply andb_prop in H as [Hraw Hhoney].
  change (RawSubmission data) in Hraw. apply negb_true_iff in Hinherited.
  cbn [properties].
  destruct (ToStringU_scalar (lit "form_id") Hraw) as [key Hkey].
  unfold namesInherited, ToPropertyKey in Hinherited. rewrite Hkey in Hinherited.
  destruct (Get data (lit "form_id")) as [form_id|]; [|eauto].
  destruct (ToBoolean (Some form_id)); [|eauto].
  unfold handler_form, ToPropertyKey. rewrite Hkey.
  unfold Member. rewrite Hinherited.
  destruct (ownProperty (FORM_CONFIGS hooks) key) as [config|]; [|eauto].
  destruct (checkHoneypot_returns _ Hhoney) as [[|] ->]; [|eauto].
  destruct (checkTimestamp_returns rt Hraw) as [[|] ->]; [|eauto].
  unfold handler_fields.
  rewrite (validateRequiredFields_collects (requiredFields config) Hraw).
  destruct (expectedErrors data (requiredFields config)); [|eauto].
  unfold handler_action.
  destruct (onSuccess config) as [hook|]; [|eauto].
  destruct (hook _); eauto.
Qed.

Lemma handler_answers_witness :
  exists effects response,
    handler shipped (engine [(text body_contact_ok, VObj data_contact_ok)])
      (POST body_contact_ok)
    = (effects, Normal response).
Proof.
  apply (@handler_answers shipped
           (engine [(text body_contact_ok, VObj data_contact_ok)])
           (POST body_contact_ok)).
  reflexivity.
Defined.
